(** * The virtual-interview session orchestrator of InterviewTab.jsx

    A shallow embedding of the React component [InterviewContent]
    (src/frontend/src/InterviewTab.jsx): its [useState] cells, its [useRef]
    cells, and the part of the browser it talks to (device tracks, the timer
    table, pending promises, and a log of the effects it performs).

    Every [async] function of the component is cut at its [await]s: the
    synchronous prefix is a function [Sys -> Sys] that parks a continuation
    in the browser's task table, and [resume] runs the continuation when the
    environment answers. *)

From stdpp Require Import gmap strings list pretty.
From Stdlib Require Import QArith.

#[local] Set Warnings "-clear-no-such-hyp".

Local Open Scope string_scope.
Local Open Scope Z_scope.
Local Open Scope list_scope.

(** ** Data *)

(** 'setup' | 'interview' | 'result' *)
Inductive Stage := Setup | Interview | Result.

(** A question as the start call returns it: [question], [type],
    [time_limit] (absent when the server leaves it out). *)
Record Question := {
  question : string;
  type : string;
  time_limit : option Z
}.

(** An encoded frame: the base64 text after the comma of [toDataURL]. *)
Definition Frame := string.
(** A recorder chunk ([e.data]) and the assembled [Blob]: raw bytes. *)
Definition Chunk := string.
Definition Blob := string.
(** Evaluation and report objects are stored as received. *)
Definition Json := string.

(** A MediaStream is the list of its tracks ([getTracks()]). *)
Definition MediaStream := list positive.

(** The preview [<video>] element; only its [srcObject] is ever written. *)
Record VideoEl := { srcObject : option MediaStream }.

(** MediaRecorder.state *)
Inductive RecState := inactive | recording | paused.
Record MediaRecorder := { state : RecState }.

(** How [new MediaRecorder(..)] and [recorder.start(..)] behave here. *)
Inductive RecEnv := RecOk | CtorThrows | StartThrows.

(** The body posted to /api/interview/submit-answer. *)
Record Payload := {
  session_id : option string;
  video_frames : list Frame;
  audio_base64 : string;
  text_answer : string
}.

(** [response.data] of the relay calls. *)
Record Response := {
  data_success : bool;
  data_error : option string;
  data_session_id : option string;
  data_questions : list Question;
  data_result : option Json;
  data_report : option Json;
  data_cv_text : option string;
  data_jd_text : option string
}.

(** An axios call settles with a response or throws. *)
Inductive Outcome :=
| Resolved (data : Response)
| Rejected (detail : option string) (message : string).

Inductive Endpoint :=
| GetCvJd
| PostStart (cv_text jd_text : string) (num_questions : Z)
| PostSubmit (body : Payload)
| PostFinish (sid : option string).

(** What the component does to the outside world, in order. *)
Inductive Effect :=
| HttpCall (ep : Endpoint)
| GetUserMedia (video audio : bool)
| TrackStop (t : positive)
| SetInterval (id : positive) (ms : Z)
| SetTimeout (id : positive) (ms : Z)
| ClearInterval (id : positive)
| RecorderStart
| RecorderStop
| ReadBlob (b : Blob)
| ToastSuccess (msg : string)
| ToastError (msg : string).

(** The two interval callbacks installed by [startVideoAnswer]. *)
Inductive Callback := CbFrame | CbTimer.

(** Continuations of the async functions, one per [await]. *)
Inductive Cont :=
| KFetchCvJd
| KStart
| KSubmitText
| KEncoded (sid : option string) (frames : list Frame) (transcript : string)
| KSubmitAudio
| KSubmitManual
| KFinish
| KCamVideo (answer : option Z)
| KCamAudio (answer : option Z)
| KStreamsInit (timeLimit : Z)
| KCountdown (i : nat) (timeLimit : Z)
| KStopped.

(** An entry of the browser's table of things still to happen. *)
Inductive Task :=
| Interval (cb : Callback)
| Timeout (k : Cont)
| Promise (k : Cont).

(** ** The component and its browser

    One record holds the [useState] cells (with the source's names, written
    through [setX]), the [useRef] cells (the field is the ref's [.current],
    written through [set_x]) and the browser: the tracks that are live, the
    pending timers and promises, the next fresh id, and the effect log. *)
#[local] Set Primitive Projections.

Record Sys := mkSys {
  stage : Stage;
  sessionId : option string;
  questions : list Question;
  currentQuestionIdx : nat;
  loading : bool;
  result : option Json;
  currentEvaluation : option Json;
  useTextMode : bool;
  textAnswer : string;
  cameraOn : bool;
  isRecording : bool;
  countdown : Z;
  timeLeft : Z;
  videoRecorded : bool;
  capturedFrames : list Frame;
  audioBlob : option Blob;
  isTranscribing : bool;
  transcriptText : string;
  cvText : string;
  jdText : string;
  cvLoading : bool;
  videoRef : option VideoEl;
  streamRef : option MediaStream;
  audioStreamRef : option MediaStream;
  mediaRecorderRef : option MediaRecorder;
  audioChunksRef : list Chunk;
  timerRef : option positive;
  frameIntervalRef : option positive;
  mountedRef : bool;
  live : gset positive;
  tasks : gmap positive Task;
  next_id : positive;
  recorder_env : RecEnv;
  trace : list Effect
}.

#[local] Unset Primitive Projections.

(** The [useState] setters and ref assignments. *)
Definition setStage (v : Stage) (s : Sys) : Sys :=
  mkSys v (sessionId s) (questions s) (currentQuestionIdx s) (loading s)
  (result s) (currentEvaluation s) (useTextMode s) (textAnswer s) (cameraOn s)
  (isRecording s) (countdown s) (timeLeft s) (videoRecorded s) (capturedFrames
  s) (audioBlob s) (isTranscribing s) (transcriptText s) (cvText s) (jdText s)
  (cvLoading s) (videoRef s) (streamRef s) (audioStreamRef s)
  (mediaRecorderRef s) (audioChunksRef s) (timerRef s) (frameIntervalRef s)
  (mountedRef s) (live s) (tasks s) (next_id s) (recorder_env s) (trace s).

Definition setSessionId (v : option string) (s : Sys) : Sys :=
  mkSys (stage s) v (questions s) (currentQuestionIdx s) (loading s) (result
  s) (currentEvaluation s) (useTextMode s) (textAnswer s) (cameraOn s)
  (isRecording s) (countdown s) (timeLeft s) (videoRecorded s) (capturedFrames
  s) (audioBlob s) (isTranscribing s) (transcriptText s) (cvText s) (jdText s)
  (cvLoading s) (videoRef s) (streamRef s) (audioStreamRef s)
  (mediaRecorderRef s) (audioChunksRef s) (timerRef s) (frameIntervalRef s)
  (mountedRef s) (live s) (tasks s) (next_id s) (recorder_env s) (trace s).

Definition setQuestions (v : list Question) (s : Sys) : Sys :=
  mkSys (stage s) (sessionId s) v (currentQuestionIdx s) (loading s) (result
  s) (currentEvaluation s) (useTextMode s) (textAnswer s) (cameraOn s)
  (isRecording s) (countdown s) (timeLeft s) (videoRecorded s) (capturedFrames
  s) (audioBlob s) (isTranscribing s) (transcriptText s) (cvText s) (jdText s)
  (cvLoading s) (videoRef s) (streamRef s) (audioStreamRef s)
  (mediaRecorderRef s) (audioChunksRef s) (timerRef s) (frameIntervalRef s)
  (mountedRef s) (live s) (tasks s) (next_id s) (recorder_env s) (trace s).

Definition setCurrentQuestionIdx (v : nat) (s : Sys) : Sys :=
  mkSys (stage s) (sessionId s) (questions s) v (loading s) (result s)
  (currentEvaluation s) (useTextMode s) (textAnswer s) (cameraOn s)
  (isRecording s) (countdown s) (timeLeft s) (videoRecorded s) (capturedFrames
  s) (audioBlob s) (isTranscribing s) (transcriptText s) (cvText s) (jdText s)
  (cvLoading s) (videoRef s) (streamRef s) (audioStreamRef s)
  (mediaRecorderRef s) (audioChunksRef s) (timerRef s) (frameIntervalRef s)
  (mountedRef s) (live s) (tasks s) (next_id s) (recorder_env s) (trace s).

Definition setLoading (v : bool) (s : Sys) : Sys :=
  mkSys (stage s) (sessionId s) (questions s) (currentQuestionIdx s) v (result
  s) (currentEvaluation s) (useTextMode s) (textAnswer s) (cameraOn s)
  (isRecording s) (countdown s) (timeLeft s) (videoRecorded s) (capturedFrames
  s) (audioBlob s) (isTranscribing s) (transcriptText s) (cvText s) (jdText s)
  (cvLoading s) (videoRef s) (streamRef s) (audioStreamRef s)
  (mediaRecorderRef s) (audioChunksRef s) (timerRef s) (frameIntervalRef s)
  (mountedRef s) (live s) (tasks s) (next_id s) (recorder_env s) (trace s).

Definition setResult (v : option Json) (s : Sys) : Sys :=
  mkSys (stage s) (sessionId s) (questions s) (currentQuestionIdx s) (loading
  s) v (currentEvaluation s) (useTextMode s) (textAnswer s) (cameraOn s)
  (isRecording s) (countdown s) (timeLeft s) (videoRecorded s) (capturedFrames
  s) (audioBlob s) (isTranscribing s) (transcriptText s) (cvText s) (jdText s)
  (cvLoading s) (videoRef s) (streamRef s) (audioStreamRef s)
  (mediaRecorderRef s) (audioChunksRef s) (timerRef s) (frameIntervalRef s)
  (mountedRef s) (live s) (tasks s) (next_id s) (recorder_env s) (trace s).

Definition setCurrentEvaluation (v : option Json) (s : Sys) : Sys :=
  mkSys (stage s) (sessionId s) (questions s) (currentQuestionIdx s) (loading
  s) (result s) v (useTextMode s) (textAnswer s) (cameraOn s) (isRecording s)
  (countdown s) (timeLeft s) (videoRecorded s) (capturedFrames s) (audioBlob
  s) (isTranscribing s) (transcriptText s) (cvText s) (jdText s) (cvLoading s)
  (videoRef s) (streamRef s) (audioStreamRef s) (mediaRecorderRef s)
  (audioChunksRef s) (timerRef s) (frameIntervalRef s) (mountedRef s) (live s)
  (tasks s) (next_id s) (recorder_env s) (trace s).

Definition setUseTextMode (v : bool) (s : Sys) : Sys :=
  mkSys (stage s) (sessionId s) (questions s) (currentQuestionIdx s) (loading
  s) (result s) (currentEvaluation s) v (textAnswer s) (cameraOn s)
  (isRecording s) (countdown s) (timeLeft s) (videoRecorded s) (capturedFrames
  s) (audioBlob s) (isTranscribing s) (transcriptText s) (cvText s) (jdText s)
  (cvLoading s) (videoRef s) (streamRef s) (audioStreamRef s)
  (mediaRecorderRef s) (audioChunksRef s) (timerRef s) (frameIntervalRef s)
  (mountedRef s) (live s) (tasks s) (next_id s) (recorder_env s) (trace s).

Definition setTextAnswer (v : string) (s : Sys) : Sys :=
  mkSys (stage s) (sessionId s) (questions s) (currentQuestionIdx s) (loading
  s) (result s) (currentEvaluation s) (useTextMode s) v (cameraOn s)
  (isRecording s) (countdown s) (timeLeft s) (videoRecorded s) (capturedFrames
  s) (audioBlob s) (isTranscribing s) (transcriptText s) (cvText s) (jdText s)
  (cvLoading s) (videoRef s) (streamRef s) (audioStreamRef s)
  (mediaRecorderRef s) (audioChunksRef s) (timerRef s) (frameIntervalRef s)
  (mountedRef s) (live s) (tasks s) (next_id s) (recorder_env s) (trace s).

Definition setCameraOn (v : bool) (s : Sys) : Sys :=
  mkSys (stage s) (sessionId s) (questions s) (currentQuestionIdx s) (loading
  s) (result s) (currentEvaluation s) (useTextMode s) (textAnswer s) v
  (isRecording s) (countdown s) (timeLeft s) (videoRecorded s) (capturedFrames
  s) (audioBlob s) (isTranscribing s) (transcriptText s) (cvText s) (jdText s)
  (cvLoading s) (videoRef s) (streamRef s) (audioStreamRef s)
  (mediaRecorderRef s) (audioChunksRef s) (timerRef s) (frameIntervalRef s)
  (mountedRef s) (live s) (tasks s) (next_id s) (recorder_env s) (trace s).

Definition setIsRecording (v : bool) (s : Sys) : Sys :=
  mkSys (stage s) (sessionId s) (questions s) (currentQuestionIdx s) (loading
  s) (result s) (currentEvaluation s) (useTextMode s) (textAnswer s) (cameraOn
  s) v (countdown s) (timeLeft s) (videoRecorded s) (capturedFrames s)
  (audioBlob s) (isTranscribing s) (transcriptText s) (cvText s) (jdText s)
  (cvLoading s) (videoRef s) (streamRef s) (audioStreamRef s)
  (mediaRecorderRef s) (audioChunksRef s) (timerRef s) (frameIntervalRef s)
  (mountedRef s) (live s) (tasks s) (next_id s) (recorder_env s) (trace s).

Definition setCountdown (v : Z) (s : Sys) : Sys :=
  mkSys (stage s) (sessionId s) (questions s) (currentQuestionIdx s) (loading
  s) (result s) (currentEvaluation s) (useTextMode s) (textAnswer s) (cameraOn
  s) (isRecording s) v (timeLeft s) (videoRecorded s) (capturedFrames s)
  (audioBlob s) (isTranscribing s) (transcriptText s) (cvText s) (jdText s)
  (cvLoading s) (videoRef s) (streamRef s) (audioStreamRef s)
  (mediaRecorderRef s) (audioChunksRef s) (timerRef s) (frameIntervalRef s)
  (mountedRef s) (live s) (tasks s) (next_id s) (recorder_env s) (trace s).

Definition setTimeLeft (v : Z) (s : Sys) : Sys :=
  mkSys (stage s) (sessionId s) (questions s) (currentQuestionIdx s) (loading
  s) (result s) (currentEvaluation s) (useTextMode s) (textAnswer s) (cameraOn
  s) (isRecording s) (countdown s) v (videoRecorded s) (capturedFrames s)
  (audioBlob s) (isTranscribing s) (transcriptText s) (cvText s) (jdText s)
  (cvLoading s) (videoRef s) (streamRef s) (audioStreamRef s)
  (mediaRecorderRef s) (audioChunksRef s) (timerRef s) (frameIntervalRef s)
  (mountedRef s) (live s) (tasks s) (next_id s) (recorder_env s) (trace s).

Definition setVideoRecorded (v : bool) (s : Sys) : Sys :=
  mkSys (stage s) (sessionId s) (questions s) (currentQuestionIdx s) (loading
  s) (result s) (currentEvaluation s) (useTextMode s) (textAnswer s) (cameraOn
  s) (isRecording s) (countdown s) (timeLeft s) v (capturedFrames s)
  (audioBlob s) (isTranscribing s) (transcriptText s) (cvText s) (jdText s)
  (cvLoading s) (videoRef s) (streamRef s) (audioStreamRef s)
  (mediaRecorderRef s) (audioChunksRef s) (timerRef s) (frameIntervalRef s)
  (mountedRef s) (live s) (tasks s) (next_id s) (recorder_env s) (trace s).

Definition setCapturedFrames (v : list Frame) (s : Sys) : Sys :=
  mkSys (stage s) (sessionId s) (questions s) (currentQuestionIdx s) (loading
  s) (result s) (currentEvaluation s) (useTextMode s) (textAnswer s) (cameraOn
  s) (isRecording s) (countdown s) (timeLeft s) (videoRecorded s) v (audioBlob
  s) (isTranscribing s) (transcriptText s) (cvText s) (jdText s) (cvLoading s)
  (videoRef s) (streamRef s) (audioStreamRef s) (mediaRecorderRef s)
  (audioChunksRef s) (timerRef s) (frameIntervalRef s) (mountedRef s) (live s)
  (tasks s) (next_id s) (recorder_env s) (trace s).

Definition setAudioBlob (v : option Blob) (s : Sys) : Sys :=
  mkSys (stage s) (sessionId s) (questions s) (currentQuestionIdx s) (loading
  s) (result s) (currentEvaluation s) (useTextMode s) (textAnswer s) (cameraOn
  s) (isRecording s) (countdown s) (timeLeft s) (videoRecorded s)
  (capturedFrames s) v (isTranscribing s) (transcriptText s) (cvText s)
  (jdText s) (cvLoading s) (videoRef s) (streamRef s) (audioStreamRef s)
  (mediaRecorderRef s) (audioChunksRef s) (timerRef s) (frameIntervalRef s)
  (mountedRef s) (live s) (tasks s) (next_id s) (recorder_env s) (trace s).

Definition setIsTranscribing (v : bool) (s : Sys) : Sys :=
  mkSys (stage s) (sessionId s) (questions s) (currentQuestionIdx s) (loading
  s) (result s) (currentEvaluation s) (useTextMode s) (textAnswer s) (cameraOn
  s) (isRecording s) (countdown s) (timeLeft s) (videoRecorded s)
  (capturedFrames s) (audioBlob s) v (transcriptText s) (cvText s) (jdText s)
  (cvLoading s) (videoRef s) (streamRef s) (audioStreamRef s)
  (mediaRecorderRef s) (audioChunksRef s) (timerRef s) (frameIntervalRef s)
  (mountedRef s) (live s) (tasks s) (next_id s) (recorder_env s) (trace s).

Definition setTranscriptText (v : string) (s : Sys) : Sys :=
  mkSys (stage s) (sessionId s) (questions s) (currentQuestionIdx s) (loading
  s) (result s) (currentEvaluation s) (useTextMode s) (textAnswer s) (cameraOn
  s) (isRecording s) (countdown s) (timeLeft s) (videoRecorded s)
  (capturedFrames s) (audioBlob s) (isTranscribing s) v (cvText s) (jdText s)
  (cvLoading s) (videoRef s) (streamRef s) (audioStreamRef s)
  (mediaRecorderRef s) (audioChunksRef s) (timerRef s) (frameIntervalRef s)
  (mountedRef s) (live s) (tasks s) (next_id s) (recorder_env s) (trace s).

Definition setCvText (v : string) (s : Sys) : Sys :=
  mkSys (stage s) (sessionId s) (questions s) (currentQuestionIdx s) (loading
  s) (result s) (currentEvaluation s) (useTextMode s) (textAnswer s) (cameraOn
  s) (isRecording s) (countdown s) (timeLeft s) (videoRecorded s)
  (capturedFrames s) (audioBlob s) (isTranscribing s) (transcriptText s) v
  (jdText s) (cvLoading s) (videoRef s) (streamRef s) (audioStreamRef s)
  (mediaRecorderRef s) (audioChunksRef s) (timerRef s) (frameIntervalRef s)
  (mountedRef s) (live s) (tasks s) (next_id s) (recorder_env s) (trace s).

Definition setJdText (v : string) (s : Sys) : Sys :=
  mkSys (stage s) (sessionId s) (questions s) (currentQuestionIdx s) (loading
  s) (result s) (currentEvaluation s) (useTextMode s) (textAnswer s) (cameraOn
  s) (isRecording s) (countdown s) (timeLeft s) (videoRecorded s)
  (capturedFrames s) (audioBlob s) (isTranscribing s) (transcriptText s)
  (cvText s) v (cvLoading s) (videoRef s) (streamRef s) (audioStreamRef s)
  (mediaRecorderRef s) (audioChunksRef s) (timerRef s) (frameIntervalRef s)
  (mountedRef s) (live s) (tasks s) (next_id s) (recorder_env s) (trace s).

Definition setCvLoading (v : bool) (s : Sys) : Sys :=
  mkSys (stage s) (sessionId s) (questions s) (currentQuestionIdx s) (loading
  s) (result s) (currentEvaluation s) (useTextMode s) (textAnswer s) (cameraOn
  s) (isRecording s) (countdown s) (timeLeft s) (videoRecorded s)
  (capturedFrames s) (audioBlob s) (isTranscribing s) (transcriptText s)
  (cvText s) (jdText s) v (videoRef s) (streamRef s) (audioStreamRef s)
  (mediaRecorderRef s) (audioChunksRef s) (timerRef s) (frameIntervalRef s)
  (mountedRef s) (live s) (tasks s) (next_id s) (recorder_env s) (trace s).

Definition set_videoRef (v : option VideoEl) (s : Sys) : Sys :=
  mkSys (stage s) (sessionId s) (questions s) (currentQuestionIdx s) (loading
  s) (result s) (currentEvaluation s) (useTextMode s) (textAnswer s) (cameraOn
  s) (isRecording s) (countdown s) (timeLeft s) (videoRecorded s)
  (capturedFrames s) (audioBlob s) (isTranscribing s) (transcriptText s)
  (cvText s) (jdText s) (cvLoading s) v (streamRef s) (audioStreamRef s)
  (mediaRecorderRef s) (audioChunksRef s) (timerRef s) (frameIntervalRef s)
  (mountedRef s) (live s) (tasks s) (next_id s) (recorder_env s) (trace s).

Definition set_streamRef (v : option MediaStream) (s : Sys) : Sys :=
  mkSys (stage s) (sessionId s) (questions s) (currentQuestionIdx s) (loading
  s) (result s) (currentEvaluation s) (useTextMode s) (textAnswer s) (cameraOn
  s) (isRecording s) (countdown s) (timeLeft s) (videoRecorded s)
  (capturedFrames s) (audioBlob s) (isTranscribing s) (transcriptText s)
  (cvText s) (jdText s) (cvLoading s) (videoRef s) v (audioStreamRef s)
  (mediaRecorderRef s) (audioChunksRef s) (timerRef s) (frameIntervalRef s)
  (mountedRef s) (live s) (tasks s) (next_id s) (recorder_env s) (trace s).

Definition set_audioStreamRef (v : option MediaStream) (s : Sys) : Sys :=
  mkSys (stage s) (sessionId s) (questions s) (currentQuestionIdx s) (loading
  s) (result s) (currentEvaluation s) (useTextMode s) (textAnswer s) (cameraOn
  s) (isRecording s) (countdown s) (timeLeft s) (videoRecorded s)
  (capturedFrames s) (audioBlob s) (isTranscribing s) (transcriptText s)
  (cvText s) (jdText s) (cvLoading s) (videoRef s) (streamRef s) v
  (mediaRecorderRef s) (audioChunksRef s) (timerRef s) (frameIntervalRef s)
  (mountedRef s) (live s) (tasks s) (next_id s) (recorder_env s) (trace s).

Definition set_mediaRecorderRef (v : option MediaRecorder) (s : Sys) : Sys :=
  mkSys (stage s) (sessionId s) (questions s) (currentQuestionIdx s) (loading
  s) (result s) (currentEvaluation s) (useTextMode s) (textAnswer s) (cameraOn
  s) (isRecording s) (countdown s) (timeLeft s) (videoRecorded s)
  (capturedFrames s) (audioBlob s) (isTranscribing s) (transcriptText s)
  (cvText s) (jdText s) (cvLoading s) (videoRef s) (streamRef s)
  (audioStreamRef s) v (audioChunksRef s) (timerRef s) (frameIntervalRef s)
  (mountedRef s) (live s) (tasks s) (next_id s) (recorder_env s) (trace s).

Definition set_audioChunksRef (v : list Chunk) (s : Sys) : Sys :=
  mkSys (stage s) (sessionId s) (questions s) (currentQuestionIdx s) (loading
  s) (result s) (currentEvaluation s) (useTextMode s) (textAnswer s) (cameraOn
  s) (isRecording s) (countdown s) (timeLeft s) (videoRecorded s)
  (capturedFrames s) (audioBlob s) (isTranscribing s) (transcriptText s)
  (cvText s) (jdText s) (cvLoading s) (videoRef s) (streamRef s)
  (audioStreamRef s) (mediaRecorderRef s) v (timerRef s) (frameIntervalRef s)
  (mountedRef s) (live s) (tasks s) (next_id s) (recorder_env s) (trace s).

Definition set_timerRef (v : option positive) (s : Sys) : Sys :=
  mkSys (stage s) (sessionId s) (questions s) (currentQuestionIdx s) (loading
  s) (result s) (currentEvaluation s) (useTextMode s) (textAnswer s) (cameraOn
  s) (isRecording s) (countdown s) (timeLeft s) (videoRecorded s)
  (capturedFrames s) (audioBlob s) (isTranscribing s) (transcriptText s)
  (cvText s) (jdText s) (cvLoading s) (videoRef s) (streamRef s)
  (audioStreamRef s) (mediaRecorderRef s) (audioChunksRef s) v
  (frameIntervalRef s) (mountedRef s) (live s) (tasks s) (next_id s)
  (recorder_env s) (trace s).

Definition set_frameIntervalRef (v : option positive) (s : Sys) : Sys :=
  mkSys (stage s) (sessionId s) (questions s) (currentQuestionIdx s) (loading
  s) (result s) (currentEvaluation s) (useTextMode s) (textAnswer s) (cameraOn
  s) (isRecording s) (countdown s) (timeLeft s) (videoRecorded s)
  (capturedFrames s) (audioBlob s) (isTranscribing s) (transcriptText s)
  (cvText s) (jdText s) (cvLoading s) (videoRef s) (streamRef s)
  (audioStreamRef s) (mediaRecorderRef s) (audioChunksRef s) (timerRef s) v
  (mountedRef s) (live s) (tasks s) (next_id s) (recorder_env s) (trace s).

Definition set_mountedRef (v : bool) (s : Sys) : Sys :=
  mkSys (stage s) (sessionId s) (questions s) (currentQuestionIdx s) (loading
  s) (result s) (currentEvaluation s) (useTextMode s) (textAnswer s) (cameraOn
  s) (isRecording s) (countdown s) (timeLeft s) (videoRecorded s)
  (capturedFrames s) (audioBlob s) (isTranscribing s) (transcriptText s)
  (cvText s) (jdText s) (cvLoading s) (videoRef s) (streamRef s)
  (audioStreamRef s) (mediaRecorderRef s) (audioChunksRef s) (timerRef s)
  (frameIntervalRef s) v (live s) (tasks s) (next_id s) (recorder_env s)
  (trace s).

Definition set_live (v : gset positive) (s : Sys) : Sys :=
  mkSys (stage s) (sessionId s) (questions s) (currentQuestionIdx s) (loading
  s) (result s) (currentEvaluation s) (useTextMode s) (textAnswer s) (cameraOn
  s) (isRecording s) (countdown s) (timeLeft s) (videoRecorded s)
  (capturedFrames s) (audioBlob s) (isTranscribing s) (transcriptText s)
  (cvText s) (jdText s) (cvLoading s) (videoRef s) (streamRef s)
  (audioStreamRef s) (mediaRecorderRef s) (audioChunksRef s) (timerRef s)
  (frameIntervalRef s) (mountedRef s) v (tasks s) (next_id s) (recorder_env s)
  (trace s).

Definition set_tasks (v : gmap positive Task) (s : Sys) : Sys :=
  mkSys (stage s) (sessionId s) (questions s) (currentQuestionIdx s) (loading
  s) (result s) (currentEvaluation s) (useTextMode s) (textAnswer s) (cameraOn
  s) (isRecording s) (countdown s) (timeLeft s) (videoRecorded s)
  (capturedFrames s) (audioBlob s) (isTranscribing s) (transcriptText s)
  (cvText s) (jdText s) (cvLoading s) (videoRef s) (streamRef s)
  (audioStreamRef s) (mediaRecorderRef s) (audioChunksRef s) (timerRef s)
  (frameIntervalRef s) (mountedRef s) (live s) v (next_id s) (recorder_env s)
  (trace s).

Definition set_next_id (v : positive) (s : Sys) : Sys :=
  mkSys (stage s) (sessionId s) (questions s) (currentQuestionIdx s) (loading
  s) (result s) (currentEvaluation s) (useTextMode s) (textAnswer s) (cameraOn
  s) (isRecording s) (countdown s) (timeLeft s) (videoRecorded s)
  (capturedFrames s) (audioBlob s) (isTranscribing s) (transcriptText s)
  (cvText s) (jdText s) (cvLoading s) (videoRef s) (streamRef s)
  (audioStreamRef s) (mediaRecorderRef s) (audioChunksRef s) (timerRef s)
  (frameIntervalRef s) (mountedRef s) (live s) (tasks s) v (recorder_env s)
  (trace s).

Definition set_trace (v : list Effect) (s : Sys) : Sys :=
  mkSys (stage s) (sessionId s) (questions s) (currentQuestionIdx s) (loading
  s) (result s) (currentEvaluation s) (useTextMode s) (textAnswer s) (cameraOn
  s) (isRecording s) (countdown s) (timeLeft s) (videoRecorded s)
  (capturedFrames s) (audioBlob s) (isTranscribing s) (transcriptText s)
  (cvText s) (jdText s) (cvLoading s) (videoRef s) (streamRef s)
  (audioStreamRef s) (mediaRecorderRef s) (audioChunksRef s) (timerRef s)
  (frameIntervalRef s) (mountedRef s) (live s) (tasks s) (next_id s)
  (recorder_env s) v.
(** ** JavaScript helpers *)

(** [s.trimStart()] and [s.trim()] on byte strings; white space is the
    ASCII set (tab, line feed, vertical tab, form feed, return, space). *)
Fixpoint trimStart (s : string) : string :=
  match s with
  | String a s' => if Ascii.is_space a then trimStart s' else s
  | EmptyString => EmptyString
  end.

Definition trim (s : string) : string :=
  String.rev (trimStart (String.rev (trimStart s))).

(** [a || d] where [a] is a string that may be missing. *)
Definition or_else (a : option string) (d : string) : string :=
  match a with
  | Some x => if decide (x = "") then d else x
  | None => d
  end.

(** [arr.slice(-n)]: the last [n] elements, all of them when fewer. *)
Definition slice_last {A} (n : nat) (l : list A) : list A :=
  drop (length l - n)%nat l.

(** ** Browser primitives *)

Definition emit (e : Effect) (s : Sys) : Sys :=
  set_trace (trace s ++ [e]) s.

Definition toast_success (msg : string) : Sys -> Sys := emit (ToastSuccess msg).
Definition toast_error (msg : string) : Sys -> Sys := emit (ToastError msg).

(** Park a task under a fresh id. *)
Definition spawn (t : Task) (s : Sys) : positive * Sys :=
  let id := next_id s in
  (id, set_next_id (Pos.succ id) (set_tasks (<[id := t]> (tasks s)) s)).

Definition setInterval (cb : Callback) (ms : Z) (s : Sys) : positive * Sys :=
  let '(id, s) := spawn (Interval cb) s in (id, emit (SetInterval id ms) s).

Definition setTimeout (k : Cont) (ms : Z) (s : Sys) : Sys :=
  let '(id, s) := spawn (Timeout k) s in emit (SetTimeout id ms) s.

Definition clearInterval (id : positive) (s : Sys) : Sys :=
  emit (ClearInterval id) (set_tasks (delete id (tasks s)) s).

(** [await p]: the rest of the function runs when the promise settles. *)
Definition await (k : Cont) (s : Sys) : Sys := snd (spawn (Promise k) s).

Definition http (ep : Endpoint) (k : Cont) (s : Sys) : Sys :=
  await k (emit (HttpCall ep) s).

(** [track.stop()] *)
Definition stop_track (s : Sys) (t : positive) : Sys :=
  emit (TrackStop t) (set_live (live s ∖ {[t]}) s).

(** [stream.getTracks().forEach(track => track.stop())] *)
Definition stop_tracks (st : MediaStream) (s : Sys) : Sys :=
  foldl stop_track s st.

(** A granted [getUserMedia]: [n] fresh live tracks. *)
Fixpoint acquire (n : nat) (s : Sys) : MediaStream * Sys :=
  match n with
  | O => ([], s)
  | S n' =>
      let t := next_id s in
      let s := set_next_id (Pos.succ t) (set_live ({[t]} ∪ live s) s) in
      let '(ts, s) := acquire n' s in (t :: ts, s)
  end.

(** The pending timers: intervals and timeouts still in the table. *)
Definition is_timer (t : Task) : bool :=
  match t with Interval _ | Timeout _ => true | Promise _ => false end.

Definition pending_timers (s : Sys) : gmap positive Task :=
  filter (λ kv, is_timer kv.2 = true) (tasks s).

(** ** Camera controls *)

(** [stopCamera] *)
Definition stopCamera (s : Sys) : Sys :=
  let s := match streamRef s with
           | Some st => set_streamRef None (stop_tracks st s)
           | None => s
           end in
  let s := match audioStreamRef s with
           | Some st => set_audioStreamRef None (stop_tracks st s)
           | None => s
           end in
  let s := match videoRef s with
           | Some _ => set_videoRef (Some {| srcObject := None |}) s
           | None => s
           end in
  setIsRecording false (setCameraOn false s).

(** [startCamera], up to the first [getUserMedia]. [answer] is [Some tl]
    when [startVideoAnswer] is the caller and waits for the result. *)
Definition startCamera (answer : option Z) (s : Sys) : Sys :=
  await (KCamVideo answer) (emit (GetUserMedia true false) s).

(** What the preview gives at the instant of a capture: the element's
    [videoWidth] while a stream is attached, and the text [toDataURL]
    yields after the comma ([None] when drawing throws). *)
Record Snap := { width : Z; jpeg : option Frame }.

Definition videoWidth (el : VideoEl) (snap : Snap) : Z :=
  match srcObject el with
  | Some _ => width snap
  | None => 0
  end.

(** [captureFrame] *)
Definition captureFrame (snap : Snap) (s : Sys) : option Frame :=
  match videoRef s with
  | None => None
  | Some el => if videoWidth el snap =? 0 then None else jpeg snap
  end.

(** [if (frame)]: a frame that is there and not the empty string. *)
Definition truthy (f : option Frame) : option Frame :=
  match f with
  | Some x => if decide (x = "") then None else Some x
  | None => None
  end.

(** ** Recording *)

(** [resetRecordingState] *)
Definition resetRecordingState (s : Sys) : Sys :=
  let s := setVideoRecorded false s in
  let s := setCapturedFrames [] s in
  let s := setAudioBlob None s in
  let s := setTranscriptText "" s in
  set_audioChunksRef [] s.

(** [questions[currentQuestionIdx]?.time_limit || 60] *)
Definition timeLimit_of (s : Sys) : Z :=
  match questions s !! currentQuestionIdx s with
  | Some q => match time_limit q with
              | Some z => if z =? 0 then 60 else z
              | None => 60
              end
  | None => 60
  end.

Definition stop_message : string := "Đã ghi xong! Đang xử lý âm thanh...".

(** The tail of [stopVideoAnswer], after the recorder branch. *)
Definition stop_done (s : Sys) : Sys :=
  toast_success stop_message (setVideoRecorded true s).

(** [stopVideoAnswer], up to [await new Promise(.. onstop ..)]. *)
Definition stopVideoAnswer (snap : Snap) (s : Sys) : Sys :=
  let s := setIsRecording false s in
  let s := match timerRef s with
           | Some id => set_timerRef None (clearInterval id s)
           | None => s
           end in
  let s := match frameIntervalRef s with
           | Some id => set_frameIntervalRef None (clearInterval id s)
           | None => s
           end in
  let s := match truthy (captureFrame snap s) with
           | Some finalFrame =>
               setCapturedFrames (capturedFrames s ++ [finalFrame]) s
           | None => s
           end in
  match mediaRecorderRef s with
  | Some r =>
      match state r with
      | inactive => stop_done s
      | _ =>
          let s := set_mediaRecorderRef (Some {| state := inactive |}) s in
          await KStopped (emit RecorderStop s)
      end
  | None => stop_done s
  end.

(** [stopVideoAnswer] after the recorder's stop event. *)
Definition stopVideoAnswer_stopped (s : Sys) : Sys :=
  let s := match audioChunksRef s with
           | [] => s
           | chunks => setAudioBlob (Some (String.concat "" chunks)) s
           end in
  stop_done s.

(** The 3-second interval callback. *)
Definition frame_tick (snap : Snap) (s : Sys) : Sys :=
  match truthy (captureFrame snap s) with
  | Some frame =>
      setCapturedFrames (slice_last 2 (capturedFrames s) ++ [frame]) s
  | None => s
  end.

(** The 1-second interval callback. *)
Definition timer_tick (snap : Snap) (s : Sys) : Sys :=
  if timeLeft s <=? 1
  then setTimeLeft 0 (stopVideoAnswer snap s)
  else setTimeLeft (timeLeft s - 1) s.

(** [recorder.ondataavailable] *)
Definition ondataavailable (chunk : Chunk) (s : Sys) : Sys :=
  if decide (chunk = "") then s
  else set_audioChunksRef (audioChunksRef s ++ [chunk]) s.

(** [startVideoAnswer] from "Start audio recording" on. *)
Definition sva_record (tl : Z) (s : Sys) : Sys :=
  let s := setCountdown 0 s in
  let s := match audioStreamRef s with
           | Some _ =>
               match recorder_env s with
               | RecOk =>
                   emit RecorderStart
                     (set_mediaRecorderRef (Some {| state := recording |}) s)
               | StartThrows =>
                   set_mediaRecorderRef (Some {| state := inactive |}) s
               | CtorThrows => s
               end
           | None => s
           end in
  let s := setTimeLeft tl s in
  let s := setIsRecording true s in
  let '(fid, s) := setInterval CbFrame 3000 s in
  let s := set_frameIntervalRef (Some fid) s in
  let '(tid, s) := setInterval CbTimer 1000 s in
  set_timerRef (Some tid) s.

(** The countdown loop [for (let i = 3; i > 0; i--)], entered at [i]. *)
Definition sva_countdown (i : nat) (tl : Z) (s : Sys) : Sys :=
  match i with
  | O => sva_record tl s
  | S _ =>
      if mountedRef s
      then setTimeout (KCountdown i tl) 1000 (setCountdown (Z.of_nat i) s)
      else s
  end.

(** [startVideoAnswer] from "Reset states" on. *)
Definition sva_reset (tl : Z) (s : Sys) : Sys :=
  let s := setCapturedFrames [] s in
  let s := setAudioBlob None s in
  let s := setTranscriptText "" s in
  let s := set_audioChunksRef [] s in
  sva_countdown 3 tl s.

(** [startVideoAnswer] *)
Definition startVideoAnswer (s : Sys) : Sys :=
  let tl := timeLimit_of s in
  if cameraOn s then sva_reset tl s else startCamera (Some tl) s.

(** ** Session and relay *)

(** [if (mountedRef.current) setLoading(false)], the [finally] blocks. *)
Definition finally_loading (s : Sys) : Sys :=
  if mountedRef s then setLoading false s else s.

(** The mount effect [fetchCvJd], up to the request. *)
Definition fetchCvJd (s : Sys) : Sys := http GetCvJd KFetchCvJd s.

(** [startInterview], up to the request. *)
Definition startInterview (s : Sys) : Sys :=
  let s' := setLoading true s in
  http (PostStart (cvText s) (jdText s) 3) KStart s'.

(** [submitTextAnswer], up to the request. *)
Definition submitTextAnswer (s : Sys) : Sys :=
  if decide (trim (textAnswer s) = "")
  then toast_error "Vui lòng nhập câu trả lời!" s
  else
    let answerToSend := trim (textAnswer s) in
    let s' := setCurrentEvaluation None (setLoading true s) in
    http (PostSubmit {| session_id := sessionId s;
                        video_frames := [];
                        audio_base64 := "";
                        text_answer := answerToSend |}) KSubmitText s'.

(** [submitWithAudio] from "Get best frames" on, with the closure's values. *)
Definition submitWithAudio_send (sid : option string) (frames : list Frame)
    (transcript audioBase64 : string) (s : Sys) : Sys :=
  let framesToSend := slice_last 3 frames in
  http (PostSubmit {| session_id := sid;
                      video_frames := framesToSend;
                      audio_base64 := audioBase64;
                      text_answer := or_else (Some (trim transcript)) "" |})
       KSubmitAudio s.

(** [submitWithAudio], up to [await blobToBase64(audioBlob)], or up to the
    request when there is no blob to read. *)
Definition submitWithAudio (s : Sys) : Sys :=
  let s' := setCurrentEvaluation None (setLoading true s) in
  match audioBlob s with
  | Some b =>
      await (KEncoded (sessionId s) (capturedFrames s) (transcriptText s))
            (emit (ReadBlob b) s')
  | None =>
      submitWithAudio_send (sessionId s) (capturedFrames s)
                           (transcriptText s) "" s'
  end.

(** [submitWithManualTranscript], up to the request. *)
Definition submitWithManualTranscript (s : Sys) : Sys :=
  if decide (trim (transcriptText s) = "")
  then toast_error "Vui lòng nhập nội dung câu trả lời!" s
  else
    let s' := setCurrentEvaluation None (setLoading true s) in
    let framesToSend := slice_last 3 (capturedFrames s) in
    http (PostSubmit {| session_id := sessionId s;
                        video_frames := framesToSend;
                        audio_base64 := "";
                        text_answer := trim (transcriptText s) |})
         KSubmitManual s'.

(** [finishInterview], up to the request. *)
Definition finishInterview (s : Sys) : Sys :=
  let s' := stopCamera s in
  let s' := setLoading true s' in
  http (PostFinish (sessionId s)) KFinish s'.

(** [nextQuestion] *)
Definition nextQuestion (s : Sys) : Sys :=
  if Z.of_nat (currentQuestionIdx s) <? Z.of_nat (length (questions s)) - 1
  then
    let s := setCurrentQuestionIdx (currentQuestionIdx s + 1)%nat s in
    let s := setCurrentEvaluation None s in
    let s := setTextAnswer "" s in
    resetRecordingState s
  else finishInterview s.

(** [resetInterview] *)
Definition resetInterview (s : Sys) : Sys :=
  let s := stopCamera s in
  let s := setStage Setup s in
  let s := setSessionId None s in
  let s := setQuestions [] s in
  let s := setCurrentQuestionIdx 0%nat s in
  let s := setResult None s in
  let s := setCurrentEvaluation None s in
  setTextAnswer "" s.

(** The cleanup of the mount effect. *)
Definition unmount (s : Sys) : Sys :=
  let s := set_mountedRef false s in
  let s := stopCamera s in
  match timerRef s with
  | Some id => clearInterval id s
  | None => s
  end.

(** ** Continuations *)

(** What the environment hands to a settled promise. *)
Inductive Answer :=
| Http (o : Outcome)
| Media (granted : option nat)
| Encoded (base64 : option string)
| Stopped.

(** The part of each submit function after [await axios.post(..)]. *)
Definition submit_settled (on_success : Sys -> Sys) (catch_msg : Outcome -> string)
    (o : Outcome) (s : Sys) : Sys :=
  let s :=
    match o with
    | Resolved d =>
        if data_success d && mountedRef s
        then toast_success "Đã ghi nhận câu trả lời!"
               (on_success (setCurrentEvaluation (data_result d) s))
        else toast_error (or_else (data_error d) "Lỗi submit") s
    | Rejected _ _ => toast_error (catch_msg o) s
    end in
  finally_loading s.

Definition text_catch_msg (o : Outcome) : string :=
  match o with
  | Rejected detail message => "Lỗi gửi câu trả lời: " +:+ or_else detail message
  | Resolved _ => ""
  end.

Definition finish_settled (o : Outcome) (s : Sys) : Sys :=
  let s :=
    match o with
    | Resolved d =>
        if data_success d && mountedRef s
        then toast_success "Hoàn thành phỏng vấn!"
               (setStage Result (setResult (data_report d) s))
        else s
    | Rejected _ _ =>
        setStage Result (toast_error "Lỗi kết thúc phỏng vấn" s)
    end in
  finally_loading s.

Definition start_settled (o : Outcome) (s : Sys) : Sys :=
  let s :=
    match o with
    | Resolved d =>
        if data_success d && mountedRef s
        then
          let s := setSessionId (data_session_id d) s in
          let s := setQuestions (data_questions d) s in
          let s := setCurrentQuestionIdx 0%nat s in
          let s := setStage Interview s in
          toast_success "Bắt đầu phỏng vấn!" s
        else toast_error (or_else (data_error d) "Lỗi bắt đầu phỏng vấn") s
    | Rejected _ _ => toast_error "Lỗi kết nối server" s
    end in
  finally_loading s.

Definition fetchCvJd_settled (o : Outcome) (s : Sys) : Sys :=
  let s :=
    match o with
    | Resolved d =>
        if data_success d && mountedRef s
        then setJdText (or_else (data_jd_text d) "")
               (setCvText (or_else (data_cv_text d) "") s)
        else s
    | Rejected _ _ => s
    end in
  if mountedRef s then setCvLoading false s else s.

(** [startCamera] once the camera request has settled. *)
Definition startCamera_video (answer : option Z) (granted : option nat)
    (s : Sys) : Sys :=
  match granted with
  | Some n =>
      let '(videoStream, s) := acquire n s in
      let s := set_streamRef (Some videoStream) s in
      let s := match videoRef s with
               | Some _ => set_videoRef (Some {| srcObject := Some videoStream |}) s
               | None => s
               end in
      await (KCamAudio answer) (emit (GetUserMedia false true) s)
  | None => toast_error "Không thể truy cập camera" s
  end.

(** [startCamera] once the microphone request has settled, and then the
    caller's [await new Promise(r => setTimeout(r, 500))]. *)
Definition startCamera_audio (answer : option Z) (granted : option nat)
    (s : Sys) : Sys :=
  let s := match granted with
           | Some n =>
               let '(audioStream, s) := acquire n s in
               set_audioStreamRef (Some audioStream) s
           | None => toast_error "Không thể truy cập microphone" s
           end in
  let s := setCameraOn true s in
  match answer with
  | Some tl => setTimeout (KStreamsInit tl) 500 s
  | None => s
  end.

(** Run continuation [k] on the environment's answer; an answer of the
    wrong kind for [k] is not something the browser produces. *)
Definition resume (k : Cont) (a : Answer) (s : Sys) : Sys :=
  match k, a with
  | KFetchCvJd, Http o => fetchCvJd_settled o s
  | KStart, Http o => start_settled o s
  | KSubmitText, Http o => submit_settled (setTextAnswer "") text_catch_msg o s
  | KSubmitAudio, Http o =>
      submit_settled resetRecordingState (λ _, "Lỗi gửi câu trả lời!") o s
  | KSubmitManual, Http o =>
      submit_settled resetRecordingState (λ _, "Lỗi gửi câu trả lời!") o s
  | KFinish, Http o => finish_settled o s
  | KEncoded sid frames transcript, Encoded (Some audioBase64) =>
      submitWithAudio_send sid frames transcript audioBase64 s
  | KEncoded _ _ _, Encoded None =>
      finally_loading (toast_error "Lỗi gửi câu trả lời!" s)
  | KCamVideo answer, Media g => startCamera_video answer g s
  | KCamAudio answer, Media g => startCamera_audio answer g s
  | KStopped, Stopped => stopVideoAnswer_stopped s
  | _, _ => s
  end.

(** A timeout that fires resumes the [startVideoAnswer] that set it. *)
Definition wake (k : Cont) (s : Sys) : Sys :=
  match k with
  | KStreamsInit tl => sva_reset tl s
  | KCountdown i tl => sva_countdown (i - 1)%nat tl s
  | _ => s
  end.

(** ** What is on screen *)

#[global] Instance Stage_eq_dec : EqDecision Stage.
Proof. solve_decision. Defined.
#[global] Instance RecState_eq_dec : EqDecision RecState.
Proof. solve_decision. Defined.
#[global] Instance Cont_eq_dec : EqDecision Cont.
Proof. solve_decision. Defined.
#[global] Instance Callback_eq_dec : EqDecision Callback.
Proof. solve_decision. Defined.
#[global] Instance Task_eq_dec : EqDecision Task.
Proof. solve_decision. Defined.

(** [renderInterview] shows something: the stage is 'interview' and
    [questions[currentQuestionIdx]] exists. *)
Definition interview_view (s : Sys) : bool :=
  mountedRef s && bool_decide (stage s = Interview)
  && bool_decide (is_Some (questions s !! currentQuestionIdx s)).

(** The "Recording Phase" branch, the one that holds the [<video>]. *)
Definition recording_phase (s : Sys) : bool :=
  interview_view s && negb (useTextMode s) && negb (videoRecorded s).

(** The "After Recording" branch. *)
Definition review_phase (s : Sys) : bool :=
  interview_view s && negb (useTextMode s) && videoRecorded s.

Inductive Button :=
| BStartInterview | BSubmitText | BStartCamera | BStartAnswer | BStopAnswer
| BSubmitAudio | BSubmitManual | BReRecord | BNext | BReset.

(** The button is rendered and not [disabled]. *)
Definition offered (b : Button) (s : Sys) : bool :=
  match b with
  | BStartInterview =>
      mountedRef s && bool_decide (stage s = Setup)
      && negb (loading s || bool_decide (cvText s = "") || cvLoading s)
  | BSubmitText =>
      interview_view s && useTextMode s
      && negb (loading s || bool_decide (trim (textAnswer s) = ""))
  | BStartCamera => recording_phase s && negb (cameraOn s)
  | BStartAnswer =>
      recording_phase s && cameraOn s && negb (isRecording s)
      && negb (loading s || (0 <? countdown s))
  | BStopAnswer => recording_phase s && cameraOn s && isRecording s
  | BSubmitAudio =>
      review_phase s && bool_decide (is_Some (audioBlob s)) && negb (loading s)
  | BSubmitManual =>
      review_phase s && bool_decide (audioBlob s = None)
      && negb (loading s || bool_decide (trim (transcriptText s) = ""))
  | BReRecord => review_phase s
  | BNext => interview_view s && bool_decide (is_Some (currentEvaluation s))
  | BReset => mountedRef s && bool_decide (stage s = Result)
  end.

(** The [onClick] handlers. *)
Definition click (b : Button) (snap : Snap) (s : Sys) : Sys :=
  match b with
  | BStartInterview => startInterview s
  | BSubmitText => submitTextAnswer s
  | BStartCamera => startCamera None s
  | BStartAnswer => startVideoAnswer s
  | BStopAnswer => stopVideoAnswer snap s
  | BSubmitAudio => submitWithAudio s
  | BSubmitManual => submitWithManualTranscript s
  | BReRecord => resetRecordingState s
  | BNext => nextQuestion s
  | BReset => resetInterview s
  end.

(** After every handler React re-renders and re-attaches [videoRef]: a
    [<video>] that stays keeps its [srcObject], a new one has none, and the
    ref is null while no [<video>] is rendered (none is after unmount). *)
Definition commit (s : Sys) : Sys :=
  if recording_phase s
  then match videoRef s with
       | Some _ => s
       | None => set_videoRef (Some {| srcObject := None |}) s
       end
  else set_videoRef None s.

(** ** The event loop *)

Inductive Event :=
| Click (b : Button) (snap : Snap)
| TypeAnswer (v : string)
| TypeTranscript (v : string)
| Mode (text : bool)
| Tick (id : positive) (snap : Snap)
| Settle (id : positive) (a : Answer)
| DataAvailable (chunk : Chunk)
| Unmount.

(** The recorder still delivers data: it records, or its stop event is
    still to come. *)
Definition recorder_delivers (s : Sys) : bool :=
  match mediaRecorderRef s with
  | Some r =>
      bool_decide (state r = recording)
      || bool_decide (map_Exists (λ _ t, t = Promise KStopped) (tasks s))
  | None => false
  end.

Definition handle (e : Event) (s : Sys) : Sys :=
  match e with
  | Click b snap => if offered b s then click b snap s else s
  | TypeAnswer v =>
      if interview_view s && useTextMode s && negb (loading s)
      then setTextAnswer v s else s
  | TypeTranscript v =>
      if review_phase s && negb (loading s) then setTranscriptText v s else s
  | Mode text => if interview_view s then setUseTextMode text s else s
  | Tick id snap =>
      match tasks s !! id with
      | Some (Interval CbFrame) => frame_tick snap s
      | Some (Interval CbTimer) => timer_tick snap s
      | Some (Timeout k) => wake k (set_tasks (delete id (tasks s)) s)
      | _ => s
      end
  | Settle id a =>
      match tasks s !! id with
      | Some (Promise k) => resume k a (set_tasks (delete id (tasks s)) s)
      | _ => s
      end
  | DataAvailable chunk =>
      if recorder_delivers s then ondataavailable chunk s else s
  | Unmount => if mountedRef s then unmount s else s
  end.

Definition step (s : Sys) (e : Event) : Sys := commit (handle e s).

Definition run (es : list Event) (s : Sys) : Sys := foldl step s es.

(** The component as first rendered, before the mount effects. *)
Definition first_render (env : RecEnv) : Sys :=
  {| stage := Setup; sessionId := None; questions := []; currentQuestionIdx := 0;
     loading := false; result := None; currentEvaluation := None;
     useTextMode := true; textAnswer := ""; cameraOn := false;
     isRecording := false; countdown := 0; timeLeft := 0;
     videoRecorded := false; capturedFrames := []; audioBlob := None;
     isTranscribing := false; transcriptText := ""; cvText := ""; jdText := "";
     cvLoading := true; videoRef := None; streamRef := None;
     audioStreamRef := None; mediaRecorderRef := None; audioChunksRef := [];
     timerRef := None; frameIntervalRef := None; mountedRef := true;
     live := ∅; tasks := ∅; next_id := 1%positive; recorder_env := env;
     trace := [] |}.

(** ... and after them. *)
Definition init (env : RecEnv) : Sys := fetchCvJd (first_render env).

(** The states the component can be in. *)
Definition reachable (s : Sys) : Prop :=
  ∃ env es, s = run es (init env).

(** * Vocabulary of the properties *)

(** [stream.getTracks()] of a stream ref that may be null. *)
Definition tracks_of (st : option MediaStream) : list positive :=
  default [] st.

(** Every live track is held by one of the two stream refs. *)
Definition owned (s : Sys) : Prop :=
  live s ⊆ list_to_set (tracks_of (streamRef s))
           ∪ list_to_set (tracks_of (audioStreamRef s)).

(** The device side of a state: the live tracks and the two stream refs. *)
Definition devices (s : Sys)
    : gset positive * option MediaStream * option MediaStream :=
  (live s, streamRef s, audioStreamRef s).

(** No camera request is answered over a stream already held: the answer
    to a [getUserMedia] finds the ref it is about to fill empty. (The
    camera button stays on screen while a request is pending, so a second
    press can have a second request answered, and the first stream is then
    dropped with its tracks live.) *)
Definition race_free (e : Event) (s : Sys) : Prop :=
  match e with
  | Settle id (Media (Some _)) =>
      match tasks s !! id with
      | Some (Promise (KCamVideo _)) => streamRef s = None
      | Some (Promise (KCamAudio _)) => audioStreamRef s = None
      | _ => True
      end
  | _ => True
  end.

Fixpoint race_free_run (es : list Event) (s : Sys) : Prop :=
  match es with
  | [] => True
  | e :: es => race_free e s ∧ race_free_run es (step s e)
  end.

(** The forced sample of [stopVideoAnswer], as the list it appends. *)
Definition final_frame (snap : Snap) (s : Sys) : list Frame :=
  match truthy (captureFrame snap s) with
  | Some finalFrame => [finalFrame]
  | None => []
  end.

(** The tracks stopped in a log, in order. *)
Definition releases (log : list Effect) : list positive :=
  omap (λ e, match e with TrackStop t => Some t | _ => None end) log.

(** No recorder is running: there is none, or it is inactive. *)
Definition recorder_idle (s : Sys) : Prop :=
  mediaRecorderRef s = None ∨ mediaRecorderRef s = Some {| state := inactive |}.

(** A state in which "begin answer" has never run: nothing is being
    recorded, no interval has been set and no recorder created. *)
Definition not_begun (s : Sys) : Prop :=
  isRecording s = false ∧ timerRef s = None ∧ frameIntervalRef s = None
  ∧ mediaRecorderRef s = None.


#[global] Instance owned_dec s : Decision (owned s).
Proof. unfold owned. apply _. Defined.

(** * A concrete session *)

Definition q1 : Question :=
  {| question := "Tell me about a migration you led.";
     type := "behavioral"; time_limit := Some 90 |}.

(** A successful response of the relay. *)
Definition served : Response :=
  {| data_success := true; data_error := None;
     data_session_id := Some "session-1"; data_questions := [q1];
     data_result := Some "{evaluation}"; data_report := Some "{report}";
     data_cv_text := Some "Senior backend engineer, 5y Go/Python";
     data_jd_text := Some "Backend role requiring Go, Kubernetes" |}.

(** A response that reports failure in its body. *)
Definition refused : Response :=
  {| data_success := false; data_error := Some "session not found";
     data_session_id := None; data_questions := [];
     data_result := None; data_report := None;
     data_cv_text := None; data_jd_text := None |}.

(** The preview shows a 640-wide picture that encodes to [f]. *)
Definition shot (f : Frame) : Snap := {| width := 640; jpeg := Some f |}.
Definition no_shot : Snap := {| width := 0; jpeg := None |}.

(** The resume is fetched, the interview starts with one question, and the
    user switches to video mode. *)
Definition at_interview : Sys :=
  run [Settle 1 (Http (Resolved served));
       Click BStartInterview no_shot;
       Settle 2 (Http (Resolved served));
       Mode false]
      (init RecOk).

(** Camera and microphone are granted, one track each (tracks 4 and 6). *)
Definition camera_ready : Sys :=
  run [Click BStartCamera no_shot;
       Settle 3 (Media (Some 1%nat));
       Settle 5 (Media (Some 1%nat))]
      at_interview.

(** "Begin answer" is pressed: the countdown shows 3 (timeout 7). *)
Definition counting : Sys := step camera_ready (Click BStartAnswer no_shot).

(** The countdown has run down: recording, with the frame interval under
    id 10 and the per-second timer under id 11. *)
Definition recording_now : Sys :=
  run [Tick 7 no_shot; Tick 8 no_shot; Tick 9 no_shot] counting.

(** Nine seconds later three frames have been sampled. *)
Definition three_frames : Sys :=
  run [Tick 10 (shot "f1"); Tick 10 (shot "f2"); Tick 10 (shot "f3")]
      recording_now.

(** The recording is stopped with a fourth frame and its audio assembled:
    the review screen, with frames and an audio blob. *)
Definition recorded : Sys :=
  run [Click BStopAnswer (shot "f4"); DataAvailable "voice"; Settle 12 Stopped]
      three_frames.

(** The only question has been answered in text mode and evaluated. *)
Definition answered : Sys :=
  run [Mode true;
       TypeAnswer "I led a migration to Kubernetes at my last job";
       Click BSubmitText no_shot;
       Settle 3 (Http (Resolved served))]
      at_interview.

(** The answer is recorded (four frames, audio, a typed transcript), then
    answered in text mode instead, evaluated, and finished. *)
Definition finished_with_recording : Sys :=
  run [Click BStopAnswer (shot "f4");
       DataAvailable "voice";
       Settle 12 Stopped;
       TypeTranscript "spoken answer";
       Mode true;
       TypeAnswer "typed answer";
       Click BSubmitText no_shot;
       Settle 13 (Http (Resolved served));
       Click BNext no_shot;
       Settle 14 (Http (Resolved served))]
      three_frames.

(** The microphone is refused, the answer is recorded without sound and
    without a frame: the review shows an empty buffer. *)
Definition recorded_nothing : Sys :=
  run [Click BStartCamera no_shot;
       Settle 3 (Media (Some 1%nat));
       Settle 5 (Media None);
       Click BStartAnswer no_shot;
       Tick 6 no_shot; Tick 7 no_shot; Tick 8 no_shot;
       Click BStopAnswer no_shot]
      at_interview.





(** * The rest of the file

    What the properties so far did not need: the clock, runs of the two
    interval callbacks and of the recorder's events, the error boundary
    and the score badge of InterviewTab.jsx, and the tab bar of App.jsx,
    which mounts the component. *)

(** ** The clock of the recording badge *)





(** ** Runs of one callback *)

(** The 3-second callback, once per snapshot of the preview. *)
Definition frame_ticks (snaps : list Snap) (s : Sys) : Sys :=
  foldl (λ s snap, frame_tick snap s) s snaps.

(** The frames the preview of [s] yields over a series of snapshots. *)
Definition sampled (snaps : list Snap) (s : Sys) : list Frame :=
  omap (λ snap, truthy (captureFrame snap s)) snaps.

(** The recorder's [dataavailable] events, in order. *)
Definition on_chunks (chunks : list Chunk) (s : Sys) : Sys :=
  foldl (λ s chunk, ondataavailable chunk s) s chunks.

(** The timer [tid] fires once per snapshot. *)
Definition timer_ticks (tid : positive) (snaps : list Snap) (s : Sys) : Sys :=
  foldl (λ s snap, handle (Tick tid snap) s) s snaps.

(** The state in which the countdown step that showed [i] wakes up: its
    timeout was set under the next fresh id and has fired. *)
Definition counted (i : nat) (s : Sys) : Sys :=
  set_tasks (delete (next_id s) (tasks s))
    (emit (SetTimeout (next_id s) 1000)
       (set_next_id (Pos.succ (next_id s)) (setCountdown (Z.of_nat i) s))).

(** Whether [startVideoAnswer] gets a recorder going in this state. *)
Definition recorder_starts (s : Sys) : bool :=
  match audioStreamRef s, recorder_env s with
  | Some _, RecOk => true
  | _, _ => false
  end.

(** ** What goes out to the relay *)

(** What holds of every request the component sends: a start request
    carries a resume and asks for three questions, a submitted answer
    carries at most three frames. *)
Definition well_formed (e : Effect) : Prop :=
  match e with
  | HttpCall (PostStart cv_text _ num_questions) =>
      cv_text ≠ "" ∧ num_questions = 3
  | HttpCall (PostSubmit body) => (length (video_frames body) ≤ 3)%nat
  | _ => True
  end.

(** Every request sent so far is well formed. *)
Definition sent_ok (s : Sys) : Prop := Forall well_formed (trace s).

(** Every button but the camera button and "next". *)
Definition waits (b : Button) : bool :=
  match b with
  | BStartInterview | BSubmitText | BSubmitAudio | BSubmitManual
  | BStartAnswer | BStopAnswer | BReRecord | BReset => true
  | BStartCamera | BNext => false
  end.

(** ** The error boundary *)







(** ** The score badge *)

Inductive Colour := Green | Yellow | Red.

(** [getColor] of [ScoreBadge] *)
Definition getColor (s : Q) : Colour :=
  if Qle_bool 8 s then Green
  else if Qle_bool 6 s then Yellow
  else Red.

(** [score || 5], the argument every badge is given: a score that is
    missing or zero is replaced by 5. *)
Definition score_or_5 (score : option Q) : Q :=
  match score with
  | Some q => if Qeq_bool q 0 then 5%Q else q
  | None => 5%Q
  end.

(** Better colours rank higher. *)
Definition rank (c : Colour) : nat :=
  match c with Red => 0 | Yellow => 1 | Green => 2 end.

(** ** More of the concrete session *)

(** The camera is granted (track 4) and the microphone refused. *)
Definition camera_only : Sys :=
  run [Click BStartCamera no_shot;
       Settle 3 (Media (Some 1%nat));
       Settle 5 (Media None)]
      at_interview.

(** The buttons other than "next" and "record again". *)
Definition primary (b : Button) : bool :=
  match b with
  | BNext | BReRecord => false
  | _ => true
  end.

(** The question shown is the last one. *)
Definition last_question (s : Sys) : Prop :=
  ¬ (Z.of_nat (currentQuestionIdx s) < Z.of_nat (length (questions s)) - 1).


(** ** White space *)



(** ** The tab bar of App.jsx *)

(** The components [renderTab] can return. *)
Inductive TabView :=
| AnalyzeTab | JobsTab | ImproveTab | InterviewTab | ChatTab.

(** [tabs]: the ids and labels of the bar, in order. *)
Definition tabs : list (string * string) :=
  [("analyze", "Phân Tích CV-JD"); ("jobs", "Tìm Việc Làm");
   ("improve", "Cải Thiện CV"); ("interview", "Phỏng Vấn Ảo");
   ("chat", "Chat AI")].

(** [renderTab], as a function of [activeTab]. *)
Definition renderTab (activeTab : string) : TabView :=
  if decide (activeTab = "analyze") then AnalyzeTab
  else if decide (activeTab = "jobs") then JobsTab
  else if decide (activeTab = "improve") then ImproveTab
  else if decide (activeTab = "interview") then InterviewTab
  else if decide (activeTab = "chat") then ChatTab
  else AnalyzeTab.

(** * Properties *)

(** ** Release of the device tracks *)

(** Open a state into its cells, under names that shadow nothing. *)
Ltac destruct_sys s :=
  destruct s as [x1 x2 x3 x4 x5 x6 x7 x8 x9 x10 x11 x12 x13 x14 x15 x16 x17
                 x18 x19 x20 x21 x22 x23 x24 x25 x26 x27 x28 x29 x30 x31 x32
                 x33 x34].

Lemma stop_tracks_eq st s :
  stop_tracks st s =
  set_trace (trace s ++ map TrackStop st)
            (set_live (live s ∖ list_to_set st) s).
Proof.
  revert s. induction st as [|t st IH]; intros s.
  - destruct_sys s; cbn. unfold set_trace, set_live; cbn.
    by rewrite app_nil_r, difference_empty_L.
  - cbn [stop_tracks foldl]. fold (stop_tracks st (stop_track s t)).
    rewrite IH. destruct_sys s; cbn. unfold set_trace, set_live; cbn.
    f_equal; [by rewrite difference_difference_l_L | by rewrite <- app_assoc].
Qed.

Lemma stopCamera_live s :
  live (stopCamera s) =
  live s ∖ (list_to_set (tracks_of (streamRef s))
            ∪ list_to_set (tracks_of (audioStreamRef s))).
Proof.
  unfold stopCamera.
  destruct_sys s. destruct x23, x24, x22;
    repeat (cbn -[stop_tracks]; rewrite ?stop_tracks_eq); set_solver.
Qed.

Lemma stopCamera_trace s :
  trace (stopCamera s) =
  trace s ++ map TrackStop (tracks_of (streamRef s)
                            ++ tracks_of (audioStreamRef s)).
Proof.
  unfold stopCamera.
  destruct_sys s. destruct x23, x24, x22;
    repeat (cbn -[stop_tracks]; rewrite ?stop_tracks_eq);
    rewrite ?map_app, ?app_nil_r, <- ?app_assoc; done.
Qed.

Lemma stopCamera_refs s :
  streamRef (stopCamera s) = None ∧ audioStreamRef (stopCamera s) = None
  ∧ cameraOn (stopCamera s) = false ∧ isRecording (stopCamera s) = false.
Proof.
  unfold stopCamera.
  destruct_sys s. destruct x23, x24, x22;
    repeat (cbn -[stop_tracks]; rewrite ?stop_tracks_eq); done.
Qed.

(** [stopCamera] touches neither the timer table nor the timer refs. *)
Lemma stopCamera_tasks s :
  tasks (stopCamera s) = tasks s ∧ next_id (stopCamera s) = next_id s
  ∧ timerRef (stopCamera s) = timerRef s
  ∧ frameIntervalRef (stopCamera s) = frameIntervalRef s
  ∧ mountedRef (stopCamera s) = mountedRef s.
Proof.
  unfold stopCamera.
  destruct_sys s. destruct x23, x24, x22;
    repeat (cbn -[stop_tracks]; rewrite ?stop_tracks_eq); done.
Qed.

Lemma stopCamera_releases s : owned s → live (stopCamera s) = ∅.
Proof. unfold owned. rewrite stopCamera_live. set_solver. Qed.

(** What teardown does release: every track the stream refs hold. *)
Lemma unmount_releases s : owned s → live (unmount s) = ∅.
Proof.
  intros H. unfold unmount.
  set (s0 := set_mountedRef false s).
  assert (H0 : owned s0) by (destruct_sys s; exact H).
  pose proof (stopCamera_releases s0 H0) as Hl.
  destruct (timerRef (stopCamera s0)); [|done].
  unfold clearInterval, emit. cbn -[stopCamera]. done.
Qed.

Lemma resetInterview_releases s : owned s → live (resetInterview s) = ∅.
Proof.
  intros H. unfold resetInterview. cbn -[stopCamera].
  by apply stopCamera_releases.
Qed.

(** Release is idempotent: a second [stopCamera] stops no track. *)
Lemma stopCamera_twice_trace s :
  trace (stopCamera (stopCamera s)) = trace (stopCamera s).
Proof.
  rewrite (stopCamera_trace (stopCamera s)).
  destruct (stopCamera_refs s) as (-> & -> & _). cbn. by rewrite app_nil_r.
Qed.

(** ** Frame facts about the continuations *)

Lemma commit_live s : live (commit s) = live s.
Proof. unfold commit. destruct (recording_phase s), (videoRef s); done. Qed.

Lemma commit_trace s : trace (commit s) = trace s.
Proof. unfold commit. destruct (recording_phase s), (videoRef s); done. Qed.

Lemma commit_stage s : stage (commit s) = stage s.
Proof. unfold commit. destruct (recording_phase s), (videoRef s); done. Qed.




(** ** Ownership of the tracks *)

Ltac split_state :=
  repeat (cbn;
    match goal with
    | |- context [match ?x with _ => _ end] => destruct x eqn:?
    end).

Ltac devices_same := intros; unfold devices; split_state; cbn in *; congruence.

Lemma owned_devices s s' : devices s' = devices s → owned s → owned s'.
Proof. unfold devices, owned. intros [= -> -> ->]. done. Qed.

Lemma owned_released s : live s = ∅ → owned s.
Proof. unfold owned. intros ->. set_solver. Qed.

Lemma acquire_devices n s :
  live (acquire n s).2 = list_to_set (acquire n s).1 ∪ live s
  ∧ streamRef (acquire n s).2 = streamRef s
  ∧ audioStreamRef (acquire n s).2 = audioStreamRef s.
Proof.
  revert s. induction n as [|n IH]; intros s; cbn.
  - split; [set_solver | done].
  - specialize (IH (set_next_id (Pos.succ (next_id s))
                      (set_live ({[next_id s]} ∪ live s) s))).
    destruct (acquire n _) as [ts s']. cbn in *.
    destruct IH as (-> & -> & ->). split; [set_solver | done].
Qed.

Lemma click_owned b snap s : owned s → owned (click b snap s).
Proof.
  intros H. destruct b; cbn [click];
    try (apply (λ E, owned_devices s _ E H);
         unfold startInterview, submitTextAnswer, startCamera,
           startVideoAnswer, sva_reset, sva_countdown, stopVideoAnswer,
           submitWithAudio, submitWithAudio_send, submitWithManualTranscript,
           resetRecordingState;
         devices_same).
  - unfold nextQuestion. destruct (_ <? _).
    + apply (λ E, owned_devices s _ E H). unfold resetRecordingState. devices_same.
    + apply owned_released. unfold finishInterview. cbn -[stopCamera].
      by apply stopCamera_releases.
  - by apply owned_released, resetInterview_releases.
Qed.

Lemma tick_owned cb snap s :
  owned s → owned (match cb with CbFrame => frame_tick snap s | CbTimer => timer_tick snap s end).
Proof.
  intros H. apply (λ E, owned_devices s _ E H).
  destruct cb; unfold frame_tick, timer_tick, stopVideoAnswer; devices_same.
Qed.

Lemma wake_owned k s : owned s → owned (wake k s).
Proof.
  intros H. apply (λ E, owned_devices s _ E H).
  destruct k; cbn [wake]; try done;
    unfold sva_reset, sva_countdown, sva_record; devices_same.
Qed.

Lemma startCamera_video_owned answer g s :
  owned s → (is_Some g → streamRef s = None) →
  owned (startCamera_video answer g s).
Proof.
  intros H Hfree. unfold startCamera_video. destruct g as [n|].
  - pose proof (acquire_devices n s) as (Hl & Hs & Ha).
    destruct (acquire n s) as [ts s']. cbn in Hl, Hs, Ha.
    unfold owned in *. rewrite Hfree in H by done.
    destruct (videoRef _); cbn; rewrite Hl, Ha; cbn in *; set_solver.
  - by apply (owned_devices s).
Qed.

Lemma startCamera_audio_owned answer g s :
  owned s → (is_Some g → audioStreamRef s = None) →
  owned (startCamera_audio answer g s).
Proof.
  intros H Hfree. unfold startCamera_audio. destruct g as [n|].
  - pose proof (acquire_devices n s) as (Hl & Hs & Ha).
    destruct (acquire n s) as [ts s']. cbn in Hl, Hs, Ha.
    unfold owned in *. rewrite Hfree in H by done.
    destruct answer; cbn; rewrite Hl, Hs; cbn in *; set_solver.
  - apply (owned_devices s); [|done]. destruct answer; done.
Qed.

Lemma resume_owned k a s :
  owned s →
  match k, a with
  | KCamVideo _, Media (Some _) => streamRef s = None
  | KCamAudio _, Media (Some _) => audioStreamRef s = None
  | _, _ => True
  end →
  owned (resume k a s).
Proof.
  intros H Hfree.
  destruct k, a as [o|g|b|]; cbn [resume]; try done;
    try (apply startCamera_video_owned; [done|]; by destruct g);
    try (apply startCamera_audio_owned; [done|]; by destruct g);
    try (apply (λ E, owned_devices s _ E H);
         try destruct b;
         unfold fetchCvJd_settled, start_settled, submit_settled,
           finish_settled, finally_loading, submitWithAudio_send,
           stopVideoAnswer_stopped, resetRecordingState;
         devices_same).
Qed.

Lemma commit_owned s : owned s → owned (commit s).
Proof. apply owned_devices. unfold commit. devices_same. Qed.

(** Every event keeps the tracks owned, as long as no camera request is
    answered over a stream that is already held. *)
Lemma step_owned e s : owned s → race_free e s → owned (step s e).
Proof.
  intros H Hfree. apply commit_owned. destruct e; cbn [handle].
  - destruct (offered b s); [by apply click_owned | done].
  - apply (λ E, owned_devices s _ E H). devices_same.
  - apply (λ E, owned_devices s _ E H). devices_same.
  - apply (λ E, owned_devices s _ E H). devices_same.
  - destruct (tasks s !! id) as [[[]|k|k]|] eqn:Hid; try done.
    + by apply (tick_owned CbFrame).
    + by apply (tick_owned CbTimer).
    + by apply wake_owned, (owned_devices s).
  - destruct (tasks s !! id) as [[cb|k|k]|] eqn:Hid; try done.
    apply resume_owned; [by apply (owned_devices s)|].
    cbn [race_free] in Hfree. rewrite Hid in Hfree.
    destruct k, a as [o|[n|]|b|]; done.
  - apply (λ E, owned_devices s _ E H). unfold ondataavailable. devices_same.
  - destruct (mountedRef s); [|done]. by apply owned_released, unmount_releases.
Qed.

Lemma run_owned es s : owned s → race_free_run es s → owned (run es s).
Proof.
  revert s. induction es as [|e es IH]; intros s H Hfree; [done|].
  destruct Hfree as [He Hes]. apply IH; [by apply step_owned | done].
Qed.

Lemma init_owned env : owned (init env).
Proof. by apply owned_released. Qed.

(** ** Reachability *)

Lemma reachable_run es s : reachable s → reachable (run es s).
Proof.
  intros (env & es0 & ->). exists env, (es0 ++ es).
  unfold run. by rewrite foldl_app.
Qed.

Lemma reachable_step e s : reachable s → reachable (step s e).
Proof. apply (reachable_run [e]). Qed.

Lemma reachable_init env : reachable (init env).
Proof. by exists env, []. Qed.

(** The states of the concrete session are states of the component ... *)
Lemma session_reachable :
  reachable recording_now ∧ reachable three_frames ∧ reachable recorded
  ∧ reachable answered ∧ reachable finished_with_recording
  ∧ reachable recorded_nothing.
Proof.
  assert (H0 : reachable at_interview)
    by (unfold at_interview; apply reachable_run, reachable_init).
  assert (H1 : reachable recording_now).
  { unfold recording_now. apply reachable_run.
    unfold counting. apply reachable_step.
    unfold camera_ready. by apply reachable_run. }
  assert (H2 : reachable three_frames)
    by (unfold three_frames; by apply reachable_run).
  split_and!; try done.
  - unfold recorded. by apply reachable_run.
  - unfold answered. by apply reachable_run.
  - unfold finished_with_recording. by apply reachable_run.
  - unfold recorded_nothing. by apply reachable_run.
Qed.

(** ... met without any race on the camera: there every live track is
    owned. *)
Lemma recording_now_owned : owned recording_now.
Proof.
  change recording_now with
    (run [Settle 1 (Http (Resolved served));
          Click BStartInterview no_shot;
          Settle 2 (Http (Resolved served));
          Mode false;
          Click BStartCamera no_shot;
          Settle 3 (Media (Some 1%nat));
          Settle 5 (Media (Some 1%nat));
          Click BStartAnswer no_shot;
          Tick 7 no_shot; Tick 8 no_shot; Tick 9 no_shot]
         (init RecOk)).
  apply run_owned; [apply init_owned|].
  vm_compute. repeat split; reflexivity.
Qed.

Example recording_now_view :
  isRecording recording_now = true
  ∧ frameIntervalRef recording_now = Some 10%positive
  ∧ timerRef recording_now = Some 11%positive
  ∧ streamRef recording_now = Some [4%positive]
  ∧ audioStreamRef recording_now = Some [6%positive]
  ∧ live recording_now = {[4%positive; 6%positive]}
  ∧ timeLeft recording_now = 90.
Proof. vm_compute. repeat split; reflexivity. Qed.

(** ** The capture buffer *)

Lemma slice_last_length {A} n (l : list A) : (length (slice_last n l) ≤ n)%nat.
Proof. unfold slice_last. rewrite length_drop. lia. Qed.

Lemma slice_last_suffix {A} n (l : list A) : slice_last n l `suffix_of` l.
Proof. apply suffix_drop. Qed.

(** The 3-second tick keeps the last three frames. *)
Lemma frame_tick_bound snap s :
  (length (capturedFrames s) ≤ 3)%nat →
  (length (capturedFrames (frame_tick snap s)) ≤ 3)%nat.
Proof.
  intros H. unfold frame_tick.
  destruct (truthy (captureFrame snap s)); [|done].
  cbn. rewrite length_app. pose proof (slice_last_length 2 (capturedFrames s)).
  cbn. lia.
Qed.

(** "Stop" appends its forced sample and evicts nothing. *)
Lemma stopVideoAnswer_frames snap s :
  capturedFrames (stopVideoAnswer snap s)
  = capturedFrames s ++ final_frame snap s.
Proof.
  unfold stopVideoAnswer, final_frame, captureFrame.
  split_state; cbn in *; rewrite ?app_nil_r; congruence.
Qed.

(** C1, on the code: the forced sample at stop-time is appended without
    evicting the oldest frame. After three sampled frames, pressing "stop"
    leaves four frames in [capturedFrames]. *)
Theorem stop_after_three_frames_holds_four :
  let s := step three_frames (Click BStopAnswer (shot "f4")) in
  capturedFrames three_frames = ["f1"; "f2"; "f3"]
  ∧ offered BStopAnswer three_frames = true
  ∧ capturedFrames s = ["f1"; "f2"; "f3"; "f4"]
  ∧ length (capturedFrames s) = 4%nat.
Proof. vm_compute. repeat split; reflexivity. Qed.

(** ** Stopping an answer *)

Lemma releases_app l1 l2 : releases (l1 ++ l2) = releases l1 ++ releases l2.
Proof. apply omap_app. Qed.

Lemma releases_stops ts : releases (map TrackStop ts) = ts.
Proof. induction ts as [|t ts IH]; cbn; [done | by f_equal]. Qed.

(** With no interval to clear and no recorder to stop, [stopVideoAnswer]
    still samples a frame, sets [videoRecorded] and notifies. *)
Lemma stopVideoAnswer_idle snap s :
  timerRef s = None → frameIntervalRef s = None → recorder_idle s →
  stopVideoAnswer snap s =
  toast_success stop_message
    (setVideoRecorded true
       (setCapturedFrames (capturedFrames s ++ final_frame snap s)
          (setIsRecording false s))).
Proof.
  intros Ht Hf Hr. unfold stopVideoAnswer, final_frame, captureFrame.
  destruct_sys s. cbn in Ht, Hf. subst. cbn.
  destruct x22 as [el|]; cbn;
    [destruct (videoWidth el snap =? 0); [|destruct (truthy (jpeg snap))]|];
    cbn; rewrite ?app_nil_r;
    destruct Hr as [Hr|Hr]; cbn in Hr; subst; reflexivity.
Qed.

(** After [stopVideoAnswer] both interval refs are null and no recorder
    runs; the device tracks and the preview are as before. *)
Lemma stopVideoAnswer_stops snap s :
  let s' := stopVideoAnswer snap s in
  timerRef s' = None ∧ frameIntervalRef s' = None ∧ recorder_idle s'
  ∧ live s' = live s ∧ videoRef s' = videoRef s
  ∧ streamRef s' = streamRef s ∧ audioStreamRef s' = audioStreamRef s
  ∧ releases (trace s') = releases (trace s).
Proof.
  unfold stopVideoAnswer, recorder_idle, captureFrame.
  destruct_sys s. cbn.
  destruct x27, x28, x22 as [el|]; cbn;
    try (destruct (videoWidth el snap =? 0); [|destruct (truthy (jpeg snap))]);
    cbn; destruct x25 as [[[]]|]; cbn;
    rewrite ?releases_app; cbn; rewrite ?app_nil_r; auto 10.
Qed.

(** The stop button is on screen only while [isRecording]. *)
Lemma stop_not_offered snap s :
  isRecording s = false → handle (Click BStopAnswer snap) s = s.
Proof. intros H. cbn. rewrite H. by rewrite andb_false_r. Qed.

Lemma stopVideoAnswer_isRecording snap s :
  isRecording (stopVideoAnswer snap s) = false.
Proof.
  unfold stopVideoAnswer, captureFrame. split_state; cbn in *; congruence.
Qed.

Lemma setIsRecording_same s :
  isRecording s = false → setIsRecording false s = s.
Proof. destruct_sys s. cbn. by intros ->. Qed.

(** C2, as stated, fails: while an answer is being recorded, "stop" twice in
    immediate succession samples a second final frame, raises
    [videoRecorded] at once and shows the notification. *)
Lemma second_stop_changes_state :
  let s1 := stopVideoAnswer (shot "f4") three_frames in
  let s2 := stopVideoAnswer (shot "f5") s1 in
  s2 ≠ s1
  ∧ capturedFrames s1 = ["f1"; "f2"; "f3"; "f4"]
  ∧ capturedFrames s2 = ["f1"; "f2"; "f3"; "f4"; "f5"]
  ∧ videoRecorded s1 = false ∧ videoRecorded s2 = true
  ∧ trace s2 = trace s1 ++ [ToastSuccess stop_message].
Proof.
  cbv zeta. split.
  - intros H. apply (f_equal videoRecorded) in H. vm_compute in H. discriminate.
  - vm_compute. repeat split; reflexivity.
Qed.

(** C2, amended: a second "stop" right after the first clears no interval,
    stops no recorder and releases no track (no "stop" does: release is
    [stopCamera], which is idempotent); beyond that it is not a no-op: it
    appends the frame it samples, sets [videoRecorded] and notifies again.
    After a "stop" the stop button is gone, so a second press does
    nothing. *)
Theorem second_stop_effects snap1 snap2 s :
  let s1 := stopVideoAnswer snap1 s in
  let s2 := stopVideoAnswer snap2 s1 in
  trace s2 = trace s1 ++ [ToastSuccess stop_message]
  ∧ tasks s2 = tasks s1
  ∧ mediaRecorderRef s2 = mediaRecorderRef s1
  ∧ live s2 = live s ∧ releases (trace s2) = releases (trace s)
  ∧ capturedFrames s2 = capturedFrames s1 ++ final_frame snap2 s1
  ∧ videoRecorded s2 = true
  ∧ releases (trace (stopCamera (stopCamera s2)))
    = releases (trace (stopCamera s2))
  ∧ handle (Click BStopAnswer snap2) s1 = s1.
Proof.
  intros s1 s2.
  destruct (stopVideoAnswer_stops snap1 s)
    as (Ht & Hf & Hr & Hl & _ & _ & _ & Hrel).
  fold s1 in Ht, Hf, Hr, Hl, Hrel.
  assert (Hs2 : s2 = toast_success stop_message
                  (setVideoRecorded true
                     (setCapturedFrames
                        (capturedFrames s1 ++ final_frame snap2 s1)
                        (setIsRecording false s1))))
    by (by apply stopVideoAnswer_idle).
  split_and!;
    try (rewrite Hs2; cbn; rewrite ?releases_app; cbn; rewrite ?app_nil_r;
         congruence).
  - by rewrite stopCamera_twice_trace.
  - apply stop_not_offered, stopVideoAnswer_isRecording.
Qed.

(** C3, as stated, fails: in the interview just started, "stop" before any
    "begin" sets [videoRecorded] and shows the notification. The button is
    not on screen in that state. *)
Lemma stop_before_begin_changes_state :
  let s := stopVideoAnswer no_shot at_interview in
  not_begun at_interview
  ∧ offered BStopAnswer at_interview = false
  ∧ s ≠ at_interview
  ∧ videoRecorded at_interview = false ∧ videoRecorded s = true
  ∧ trace s = trace at_interview ++ [ToastSuccess stop_message].
Proof.
  cbv zeta. split; [vm_compute; repeat split; reflexivity|].
  split; [vm_compute; reflexivity|]. split.
  - intros H. apply (f_equal videoRecorded) in H. vm_compute in H. discriminate.
  - vm_compute. repeat split; reflexivity.
Qed.

(** C3, amended: "stop" before "begin" raises no error and leaves
    [isRecording], [audioBlob], the timers, the tracks and the relay alone,
    but it sets [videoRecorded], shows the success notification, and appends
    a frame when the preview already shows a stream (none while the camera
    has not been attached). The stop button is not on screen before
    "begin", so a press there does nothing. *)
Theorem stop_before_begin snap s :
  not_begun s →
  let s' := stopVideoAnswer snap s in
  s' = toast_success stop_message
         (setVideoRecorded true
            (setCapturedFrames (capturedFrames s ++ final_frame snap s) s))
  ∧ isRecording s' = false ∧ audioBlob s' = audioBlob s
  ∧ tasks s' = tasks s ∧ live s' = live s
  ∧ trace s' = trace s ++ [ToastSuccess stop_message]
  ∧ videoRecorded s' = true
  ∧ capturedFrames s' = capturedFrames s ++ final_frame snap s
  ∧ ((∀ el, videoRef s = Some el → srcObject el = None) →
     final_frame snap s = [])
  ∧ handle (Click BStopAnswer snap) s = s.
Proof.
  intros (Hrec & Ht & Hf & Hm) s'.
  assert (Hs' : s' = toast_success stop_message
                  (setVideoRecorded true
                     (setCapturedFrames
                        (capturedFrames s ++ final_frame snap s) s))).
  { unfold s'. rewrite stopVideoAnswer_idle by (done || by left).
    by rewrite setIsRecording_same. }
  split; [exact Hs'|]. rewrite Hs'. cbn -[handle]. split_and!; try done.
  - intros Hv. unfold final_frame, captureFrame, videoWidth.
    destruct (videoRef s) as [el|]; [|done].
    by rewrite (Hv el eq_refl).
  - by apply stop_not_offered.
Qed.

Lemma stop_before_begin_witness :
  not_begun at_interview
  ∧ stopVideoAnswer (shot "f") at_interview =
      toast_success stop_message (setVideoRecorded true at_interview).
Proof.
  assert (H : not_begun at_interview)
    by (vm_compute; repeat split; reflexivity).
  split; [exact H|].
  destruct (stop_before_begin (shot "f") at_interview H)
    as (-> & _ & _ & _ & _ & _ & _ & _ & Hnone & _).
  rewrite Hnone.
  - vm_compute. reflexivity.
  - vm_compute. intros el [= <-]. reflexivity.
Defined.

(** ** Teardown *)

(** What the two teardown paths leave in the timer table: [unmount] removes
    the per-second timer only, [resetInterview] nothing at all. *)
Lemma unmount_tasks s :
  tasks (unmount s) =
  match timerRef s with Some id => delete id (tasks s) | None => tasks s end.
Proof.
  unfold unmount.
  set (s0 := set_mountedRef false s).
  destruct (stopCamera_tasks s0) as (Ht & _ & Hr & _).
  rewrite Hr. change (timerRef s0) with (timerRef s).
  destruct (timerRef s); cbn -[stopCamera]; by rewrite Ht.
Qed.

Lemma resetInterview_tasks s : tasks (resetInterview s) = tasks s.
Proof.
  unfold resetInterview. cbn -[stopCamera].
  by destruct (stopCamera_tasks s) as (-> & _).
Qed.

(** C4, on the code: unmounting while an answer is being recorded stops
    both tracks and clears the per-second timer, but the 3-second
    frame-sampling interval (id 10) stays in the timer table. *)
Theorem unmount_while_recording_leaves_frame_interval :
  let s := step recording_now Unmount in
  pending_timers recording_now
    = {[10%positive := Interval CbFrame; 11%positive := Interval CbTimer]}
  ∧ mountedRef s = false
  ∧ live s = ∅
  ∧ pending_timers s = {[10%positive := Interval CbFrame]}.
Proof. vm_compute. repeat split; reflexivity. Qed.

(** The same teardown in the last second of the countdown: the pending
    timeout (id 9) survives it, and when it fires the rest of
    [startVideoAnswer] installs both intervals in the unmounted component. *)
Lemma unmount_mid_countdown_then_intervals :
  let s := run [Tick 7 no_shot; Tick 8 no_shot; Unmount] counting in
  let s' := step s (Tick 9 no_shot) in
  live s = ∅
  ∧ pending_timers s = {[9%positive := Timeout (KCountdown 1 90)]}
  ∧ pending_timers s'
    = {[10%positive := Interval CbFrame; 11%positive := Interval CbTimer]}.
Proof. vm_compute. repeat split; reflexivity. Qed.

(** ** Finishing *)

Lemma finish_settled_success d s :
  data_success d = true → mountedRef s = true →
  stage (finish_settled (Resolved d) s) = Result
  ∧ result (finish_settled (Resolved d) s) = data_report d.
Proof.
  intros Hd Hm. unfold finish_settled, finally_loading.
  rewrite Hd, Hm. cbn. by rewrite Hm.
Qed.

Lemma finish_settled_thrown detail message s :
  stage (finish_settled (Rejected detail message) s) = Result
  ∧ result (finish_settled (Rejected detail message) s) = result s.
Proof.
  unfold finish_settled, finally_loading. cbn.
  by destruct (mountedRef s).
Qed.

(** A response whose body says [success: false] falls through both
    branches: nothing but [loading] changes. *)
Lemma finish_settled_refused d s :
  data_success d = false →
  finish_settled (Resolved d) s = finally_loading s.
Proof. intros Hd. unfold finish_settled. by rewrite Hd. Qed.

(** C5, on the code: "finish" on the last question, answered by the relay
    with [success: false], leaves the session in the Interview stage with
    no report and no message. *)
Theorem finish_refused_stays_in_interview :
  let s1 := step answered (Click BNext no_shot) in
  let s2 := step s1 (Settle 4 (Http (Resolved refused))) in
  stage answered = Interview ∧ offered BNext answered = true
  ∧ trace s1 = trace answered ++ [HttpCall (PostFinish (Some "session-1"))]
  ∧ tasks s1 !! 4%positive = Some (Promise KFinish)
  ∧ stage s2 = Interview ∧ result s2 = None ∧ loading s2 = false
  ∧ trace s2 = trace s1.
Proof. vm_compute. repeat split; reflexivity. Qed.

(** ** Reset *)

(** What [resetInterview] clears ... *)
Lemma resetInterview_clears s :
  let s' := resetInterview s in
  stage s' = Setup ∧ sessionId s' = None ∧ questions s' = []
  ∧ currentQuestionIdx s' = 0%nat ∧ result s' = None
  ∧ currentEvaluation s' = None ∧ textAnswer s' = ""
  ∧ streamRef s' = None ∧ audioStreamRef s' = None
  ∧ cameraOn s' = false ∧ isRecording s' = false.
Proof.
  unfold resetInterview. cbn -[stopCamera].
  destruct (stopCamera_refs s) as (-> & -> & -> & ->). done.
Qed.

(** ... and what it leaves as it was: the whole capture buffer. *)
Lemma resetInterview_keeps_capture s :
  let s' := resetInterview s in
  capturedFrames s' = capturedFrames s ∧ audioBlob s' = audioBlob s
  ∧ transcriptText s' = transcriptText s
  ∧ videoRecorded s' = videoRecorded s
  ∧ audioChunksRef s' = audioChunksRef s.
Proof.
  unfold resetInterview, stopCamera. destruct_sys s.
  destruct x23, x24, x22; repeat (cbn -[stop_tracks]; rewrite ?stop_tracks_eq);
    done.
Qed.

(** C6, on the code: "reset" from the Result stage goes back to Setup and
    clears the session, but the capture buffer of the last recording is
    still there. *)
Theorem reset_keeps_capture_buffer :
  let s := step finished_with_recording (Click BReset no_shot) in
  stage finished_with_recording = Result
  ∧ offered BReset finished_with_recording = true
  ∧ stage s = Setup ∧ sessionId s = None ∧ questions s = []
  ∧ live s = ∅
  ∧ capturedFrames s = ["f1"; "f2"; "f3"; "f4"]
  ∧ audioBlob s = Some "voice"
  ∧ transcriptText s = "spoken answer"
  ∧ videoRecorded s = true.
Proof. vm_compute. repeat split; reflexivity. Qed.

(** ** Advancing through the questions *)







(** ** The relay payloads *)







(** ** Empty answers *)




(** ** Finishing releases the devices first *)


(** * Properties of the rest of the component *)

(** ** The sampled frames *)

Lemma slice_last_snoc {A} (l : list A) x :
  slice_last 2 l ++ [x] = slice_last 3 (l ++ [x]).
Proof.
  unfold slice_last. rewrite length_app. cbn [length].
  replace (length l + 1 - 3)%nat with (length l - 2)%nat by lia.
  rewrite drop_app_le by lia. done.
Qed.

Lemma slice_last_all {A} n (l : list A) :
  (length l ≤ n)%nat → slice_last n l = l.
Proof.
  intros H. unfold slice_last.
  by replace (length l - n)%nat with 0%nat by lia.
Qed.

Lemma slice_last_slice {A} n (l l' : list A) :
  slice_last n (slice_last n l ++ l') = slice_last n (l ++ l').
Proof.
  destruct (decide (length l ≤ n)%nat) as [H|H].
  - by rewrite (slice_last_all n l).
  - unfold slice_last.
    rewrite <- (drop_app_le l l' (length l - n)) by lia.
    rewrite drop_drop. f_equal.
    rewrite length_drop, !length_app. lia.
Qed.

Lemma frame_tick_videoRef snap s : videoRef (frame_tick snap s) = videoRef s.
Proof. unfold frame_tick. by destruct (truthy _). Qed.

Lemma frame_tick_frames snap s :
  capturedFrames (frame_tick snap s)
  = match truthy (captureFrame snap s) with
    | Some frame => slice_last 2 (capturedFrames s) ++ [frame]
    | None => capturedFrames s
    end.
Proof. unfold frame_tick. by destruct (truthy _). Qed.

Lemma sampled_cons snap snaps s :
  sampled (snap :: snaps) s
  = match truthy (captureFrame snap s) with
    | Some frame => frame :: sampled snaps s
    | None => sampled snaps s
    end.
Proof. done. Qed.

Lemma frame_ticks_frames snaps s :
  (length (capturedFrames s) ≤ 3)%nat →
  capturedFrames (frame_ticks snaps s)
  = slice_last 3 (capturedFrames s ++ sampled snaps s).
Proof.
  revert s. induction snaps as [|snap snaps IH]; intros s Hlen.
  - cbn. by rewrite app_nil_r, slice_last_all.
  - cbn [frame_ticks foldl]. fold (frame_ticks snaps (frame_tick snap s)).
    rewrite IH by (by apply frame_tick_bound).
    assert (Hs : sampled snaps (frame_tick snap s) = sampled snaps s).
    { unfold sampled, captureFrame. by rewrite frame_tick_videoRef. }
    rewrite Hs, frame_tick_frames, sampled_cons.
    destruct (truthy (captureFrame snap s)) as [f|]; [|done].
    rewrite slice_last_snoc, slice_last_slice. by rewrite <- app_assoc.
Qed.

(** The sampling callback touches the capture buffer only. *)
Lemma frame_ticks_frame snaps s :
  mediaRecorderRef (frame_ticks snaps s) = mediaRecorderRef s
  ∧ timerRef (frame_ticks snaps s) = timerRef s
  ∧ frameIntervalRef (frame_ticks snaps s) = frameIntervalRef s
  ∧ audioBlob (frame_ticks snaps s) = audioBlob s
  ∧ videoRef (frame_ticks snaps s) = videoRef s
  ∧ trace (frame_ticks snaps s) = trace s
  ∧ tasks (frame_ticks snaps s) = tasks s.
Proof.
  revert s. induction snaps as [|snap snaps IH]; intros s; [done|].
  cbn [frame_ticks foldl]. fold (frame_ticks snaps (frame_tick snap s)).
  destruct (IH (frame_tick snap s)) as (-> & -> & -> & -> & -> & -> & ->).
  unfold frame_tick. by destruct (truthy _).
Qed.

(** X1: however often the 3-second callback runs, the capture buffer is
    the last three of the frames it held and the frames sampled since, in
    the order sampled (a snapshot that yields no frame adds nothing); it
    never holds more than three, and after the reset of [startVideoAnswer]
    it is the last three samples of the recording. *)
Theorem sampling_keeps_last_three snaps s :
  (length (capturedFrames s) ≤ 3)%nat →
  let s' := frame_ticks snaps s in
  capturedFrames s' = slice_last 3 (capturedFrames s ++ sampled snaps s)
  ∧ (length (capturedFrames s') ≤ 3)%nat
  ∧ capturedFrames s' `suffix_of` capturedFrames s ++ sampled snaps s
  ∧ (capturedFrames s = [] →
     capturedFrames s' = slice_last 3 (sampled snaps s)).
Proof.
  intros Hlen s'. unfold s'. rewrite frame_ticks_frames by done.
  split_and!; [done | apply slice_last_length | apply slice_last_suffix |].
  by intros ->.
Qed.

Lemma sampling_keeps_last_three_witness :
  capturedFrames
    (frame_ticks [shot "f1"; no_shot; shot "f2"; shot "f3"; shot "f4"]
                 recording_now)
  = ["f2"; "f3"; "f4"].
Proof.
  refine (eq_trans (proj1 (sampling_keeps_last_three
            [shot "f1"; no_shot; shot "f2"; shot "f3"; shot "f4"]
            recording_now _)) _).
  - vm_compute. lia.
  - vm_compute. reflexivity.
Defined.

(** ** The countdown *)

Lemma countdown_wake i tl snap s :
  mountedRef s = true →
  handle (Tick (next_id s) snap) (sva_countdown (S i) tl s)
  = sva_countdown i tl (counted (S i) s).
Proof.
  intros Hm. unfold sva_countdown at 1. rewrite Hm.
  unfold setTimeout, spawn. cbn [handle].
  cbn -[sva_countdown Z.of_nat]. rewrite lookup_insert_eq. cbn [wake].
  replace (S i - 1)%nat with i by lia. f_equal.
  unfold counted, emit. cbn -[Z.of_nat]. by rewrite delete_insert_eq.
Qed.

(** X2: with the camera on, [startVideoAnswer] shows 3, 2, 1 a second
    apart and only then records: it clears the capture buffer, starts a
    recorder when there is a microphone stream and the browser lets it,
    sets the time left to the question's limit, and installs the frame
    interval (3 s) and the timer (1 s), in this order and under the ids
    it keeps in [frameIntervalRef] and [timerRef]. *)
Theorem begin_answer_countdown snap1 snap2 snap3 s :
  cameraOn s = true → mountedRef s = true →
  let id := next_id s in
  let s0 := startVideoAnswer s in
  let s1 := handle (Tick id snap1) s0 in
  let s2 := handle (Tick (id + 1)%positive snap2) s1 in
  let s3 := handle (Tick (id + 2)%positive snap3) s2 in
  countdown s0 = 3 ∧ countdown s1 = 2 ∧ countdown s2 = 1 ∧ countdown s3 = 0
  ∧ isRecording s2 = isRecording s ∧ isRecording s3 = true
  ∧ timeLeft s3 = timeLimit_of s
  ∧ capturedFrames s3 = [] ∧ audioBlob s3 = None ∧ transcriptText s3 = ""
  ∧ audioChunksRef s3 = []
  ∧ frameIntervalRef s3 = Some (id + 3)%positive
  ∧ timerRef s3 = Some (id + 4)%positive
  ∧ tasks s3 !! (id + 3)%positive = Some (Interval CbFrame)
  ∧ tasks s3 !! (id + 4)%positive = Some (Interval CbTimer)
  ∧ trace s3 = trace s
      ++ [SetTimeout id 1000; SetTimeout (id + 1) 1000; SetTimeout (id + 2) 1000]
      ++ (if recorder_starts s then [RecorderStart] else [])
      ++ [SetInterval (id + 3) 3000; SetInterval (id + 4) 1000].
Proof.
  intros Hc Hm id s0 s1 s2 s3.
  set (r := set_audioChunksRef []
              (setTranscriptText "" (setAudioBlob None (setCapturedFrames [] s)))).
  assert (H0 : s0 = sva_countdown 3 (timeLimit_of s) r).
  { unfold s0, startVideoAnswer. by rewrite Hc. }
  assert (H1 : s1 = sva_countdown 2 (timeLimit_of s) (counted 3 r)).
  { unfold s1. rewrite H0. by apply (countdown_wake 2 _ _ r). }
  assert (H2 : s2 = sva_countdown 1 (timeLimit_of s) (counted 2 (counted 3 r))).
  { unfold s2. rewrite H1.
    replace (id + 1)%positive with (next_id (counted 3 r)) by (cbn; lia).
    by apply countdown_wake. }
  assert (H3 : s3 = sva_record (timeLimit_of s)
                      (counted 1 (counted 2 (counted 3 r)))).
  { unfold s3. rewrite H2.
    replace (id + 2)%positive with (next_id (counted 2 (counted 3 r)))
      by (cbn; lia).
    by rewrite countdown_wake. }
  clearbody s0 s1 s2 s3. subst s0 s1 s2 s3.
  replace (id + 3)%positive with (Pos.succ (Pos.succ (Pos.succ id))) by lia.
  replace (id + 4)%positive
    with (Pos.succ (Pos.succ (Pos.succ (Pos.succ id)))) by lia.
  replace (id + 1)%positive with (Pos.succ id) by lia.
  replace (id + 2)%positive with (Pos.succ (Pos.succ id)) by lia.
  unfold sva_record, sva_countdown, recorder_starts, setInterval, setTimeout,
    spawn.
  subst r id.
  destruct (audioStreamRef s) eqn:Ha, (recorder_env s) eqn:He;
    repeat (cbn; rewrite ?Hm, ?Ha, ?He);
    rewrite ?lookup_insert_eq;
    rewrite ?lookup_insert_ne by lia; rewrite ?lookup_insert_eq;
    rewrite <- ?app_assoc; cbn; split_and!; try done.
Qed.

Lemma begin_answer_countdown_witness :
  let s3 := handle (Tick 9 no_shot)
              (handle (Tick 8 no_shot)
                 (handle (Tick 7 no_shot) (startVideoAnswer camera_ready))) in
  isRecording s3 = true ∧ timeLeft s3 = 90
  ∧ frameIntervalRef s3 = Some 10%positive ∧ timerRef s3 = Some 11%positive.
Proof.
  cbv zeta.
  pose proof (begin_answer_countdown no_shot no_shot no_shot camera_ready)
    as H.
  assert (Hc : cameraOn camera_ready = true) by (vm_compute; reflexivity).
  assert (Hm : mountedRef camera_ready = true) by (vm_compute; reflexivity).
  specialize (H Hc Hm). cbv zeta in H.
  destruct H as (_ & _ & _ & _ & _ & Hr & Ht & _ & _ & _ & _ & Hf & Hti & _).
  change (next_id camera_ready) with 7%positive in Hr, Ht, Hf, Hti.
  split_and!; [exact Hr | | exact Hf | exact Hti].
  transitivity (timeLimit_of camera_ready); [exact Ht | vm_compute; reflexivity].
Defined.

(** ** The camera and the microphone *)

(** X3: when the camera is refused, [startCamera] shows the camera error
    and does nothing else: no stream is held, no track is live that was
    not, the camera stays off, nothing is recorded or scheduled; and
    [startVideoAnswer], which with the camera off is this very request,
    goes no further: no countdown starts. *)
Theorem camera_refused answer s :
  let s1 := startCamera answer s in
  let s2 := handle (Settle (next_id s) (Media None)) s1 in
  trace s2 = trace s ++ [GetUserMedia true false;
                         ToastError "Không thể truy cập camera"]
  ∧ devices s2 = devices s
  ∧ cameraOn s2 = cameraOn s ∧ isRecording s2 = isRecording s
  ∧ countdown s2 = countdown s ∧ capturedFrames s2 = capturedFrames s
  ∧ timerRef s2 = timerRef s ∧ frameIntervalRef s2 = frameIntervalRef s
  ∧ mediaRecorderRef s2 = mediaRecorderRef s
  ∧ tasks s2 = delete (next_id s) (tasks s)
  ∧ (cameraOn s = false →
     startVideoAnswer s = startCamera (Some (timeLimit_of s)) s).
Proof.
  intros s1 s2. unfold s2, s1, startCamera, await, spawn. cbn [handle].
  cbn. rewrite lookup_insert_eq. cbn. rewrite delete_insert_eq, <- app_assoc.
  split_and!; try done. intros H. unfold startVideoAnswer. by rewrite H.
Qed.

Lemma acquire_frame n s :
  length (acquire n s).1 = n
  ∧ tasks (acquire n s).2 = tasks s ∧ trace (acquire n s).2 = trace s
  ∧ videoRef (acquire n s).2 = videoRef s
  ∧ cameraOn (acquire n s).2 = cameraOn s
  ∧ mediaRecorderRef (acquire n s).2 = mediaRecorderRef s.
Proof.
  revert s. induction n as [|n IH]; intros s; cbn; [done|].
  specialize (IH (set_next_id (Pos.succ (next_id s))
                    (set_live ({[next_id s]} ∪ live s) s))).
  destruct (acquire n _) as [ts s']. cbn in *.
  destruct IH as (Hlen & -> & -> & -> & -> & ->).
  split_and!; try done. by f_equal.
Qed.

(** X4: when the camera is granted and the microphone refused,
    [startCamera] still turns the camera on: the video stream is held and
    shown in the preview, its tracks are live, no audio stream is held,
    the microphone error is shown, and a waiting [startVideoAnswer] goes
    on after its 500 ms pause. *)
Theorem camera_granted_microphone_refused answer n s :
  let s1 := resume (KCamVideo answer) (Media (Some n)) s in
  let s2 := resume (KCamAudio answer) (Media None) s1 in
  ∃ videoStream,
    length videoStream = n
    ∧ streamRef s2 = Some videoStream
    ∧ live s2 = list_to_set videoStream ∪ live s
    ∧ audioStreamRef s2 = audioStreamRef s
    ∧ cameraOn s2 = true
    ∧ (is_Some (videoRef s) →
       videoRef s2 = Some {| srcObject := Some videoStream |})
    ∧ mediaRecorderRef s2 = mediaRecorderRef s
    ∧ trace s2 = trace s
        ++ [GetUserMedia false true; ToastError "Không thể truy cập microphone"]
        ++ match answer with
           | Some _ => [SetTimeout (next_id s1) 500]
           | None => []
           end.
Proof.
  intros s1 s2. unfold s2, s1. cbn [resume].
  unfold startCamera_video, startCamera_audio.
  pose proof (acquire_devices n s) as (Hl & Hs & Ha).
  pose proof (acquire_frame n s) as (Hlen & Ht & Htr & Hv & Hc & Hm).
  destruct (acquire n s) as [ts s']. cbn in Hl, Hs, Ha, Hlen, Ht, Htr, Hv, Hc, Hm.
  exists ts.
  destruct (videoRef s') as [el|] eqn:Hv', answer as [tl|]; cbn;
    rewrite ?Hv', <- ?app_assoc; cbn;
    split_and!; try done; try congruence;
    try (rewrite <- Hv; by intros [? ?]).
Qed.

(** ** An answer without a microphone *)

(** X5: without an audio stream [startVideoAnswer] creates no recorder,
    and the answer is video only: [stopVideoAnswer] finishes at once, with
    no recorder to wait for, clears both intervals, leaves the audio blob
    as it was, and the buffer it leaves is the last three sampled frames
    followed by the forced final frame, four at most; with no blob, the
    review screen then offers the manual transcript and not the audio
    submit. *)
Theorem video_only_answer tl snaps snap s :
  audioStreamRef s = None → mediaRecorderRef s = None →
  (length (capturedFrames s) ≤ 3)%nat →
  let s1 := sva_record tl s in
  let s2 := frame_ticks snaps s1 in
  let s3 := stopVideoAnswer snap s2 in
  isRecording s1 = true
  ∧ mediaRecorderRef s3 = None
  ∧ audioBlob s3 = audioBlob s
  ∧ videoRecorded s3 = true ∧ isRecording s3 = false
  ∧ timerRef s3 = None ∧ frameIntervalRef s3 = None
  ∧ capturedFrames s3
    = slice_last 3 (capturedFrames s ++ sampled snaps s) ++ final_frame snap s
  ∧ (length (capturedFrames s3) ≤ 4)%nat
  ∧ trace s3 = trace s
      ++ [SetInterval (next_id s) 3000; SetInterval (Pos.succ (next_id s)) 1000;
          ClearInterval (Pos.succ (next_id s)); ClearInterval (next_id s);
          ToastSuccess stop_message]
  ∧ (audioBlob s = None → offered BSubmitAudio s3 = false).
Proof.
  intros Ha Hm Hlen s1 s2 s3.
  assert (H1 : isRecording s1 = true ∧ mediaRecorderRef s1 = None
               ∧ timerRef s1 = Some (Pos.succ (next_id s))
               ∧ frameIntervalRef s1 = Some (next_id s)
               ∧ capturedFrames s1 = capturedFrames s
               ∧ audioBlob s1 = audioBlob s ∧ videoRef s1 = videoRef s
               ∧ trace s1 = trace s ++ [SetInterval (next_id s) 3000;
                                        SetInterval (Pos.succ (next_id s)) 1000]).
  { unfold s1, sva_record, setInterval, spawn. cbn. rewrite Ha. cbn.
    rewrite <- app_assoc. done. }
  destruct H1 as (Hr1 & Hm1 & Ht1 & Hf1 & Hc1 & Hb1 & Hv1 & Htr1).
  destruct (frame_ticks_frame snaps s1)
    as (Hm2 & Ht2 & Hf2 & Hb2 & Hv2 & Htr2 & _).
  fold s2 in Hm2, Ht2, Hf2, Hb2, Hv2, Htr2.
  assert (Hc2 : capturedFrames s2
                = slice_last 3 (capturedFrames s ++ sampled snaps s)).
  { unfold s2. rewrite frame_ticks_frames by (by rewrite Hc1).
    rewrite Hc1. unfold sampled, captureFrame. by rewrite Hv1. }
  assert (Hff : final_frame snap s2 = final_frame snap s).
  { unfold final_frame, captureFrame. by rewrite Hv2, Hv1. }
  assert (H3 : s3 = toast_success stop_message
            (setVideoRecorded true
               (setCapturedFrames (capturedFrames s2 ++ final_frame snap s2)
                  (set_frameIntervalRef None
                     (clearInterval (next_id s)
                        (set_timerRef None
                           (clearInterval (Pos.succ (next_id s))
                              (setIsRecording false s2)))))))).
  { unfold s3, stopVideoAnswer, final_frame. cbn.
    rewrite Ht2, Ht1. cbn. rewrite Hf2, Hf1. cbn.
    destruct (truthy (captureFrame snap _)) eqn:E; cbn; rewrite ?E; cbn;
      rewrite Hm2, Hm1; rewrite ?app_nil_r; done. }
  rewrite H3. cbn. rewrite Hm2, Hm1, Hb2, Hb1, Hc2, Hff, Htr2, Htr1.
  rewrite <- !app_assoc. cbn.
  split_and!; try done.
  - rewrite length_app.
    pose proof (slice_last_length 3 (capturedFrames s ++ sampled snaps s)).
    unfold final_frame. destruct (truthy _); cbn; lia.
  - intros Hb. rewrite Hb. cbn. by rewrite andb_false_r.
Qed.

Lemma video_only_answer_witness :
  capturedFrames
    (stopVideoAnswer (shot "f3")
       (frame_ticks [shot "f1"; shot "f2"] (sva_record 90 camera_only)))
  = ["f1"; "f2"; "f3"].
Proof.
  pose proof (video_only_answer 90 [shot "f1"; shot "f2"] (shot "f3")
                camera_only) as H.
  assert (Ha : audioStreamRef camera_only = None) by (vm_compute; reflexivity).
  assert (Hm : mediaRecorderRef camera_only = None)
    by (vm_compute; reflexivity).
  assert (Hl : (length (capturedFrames camera_only) ≤ 3)%nat)
    by (vm_compute; lia).
  specialize (H Ha Hm Hl). cbv zeta in H.
  destruct H as (_ & _ & _ & _ & _ & _ & _ & Hc & _).
  rewrite Hc. vm_compute. reflexivity.
Defined.

(** ** The audio blob *)

Lemma on_chunks_chunks chunks s :
  audioChunksRef (on_chunks chunks s)
  = audioChunksRef s ++ filter (λ c, c ≠ "") chunks.
Proof.
  revert s. induction chunks as [|c chunks IH]; intros s.
  - cbn. by rewrite app_nil_r.
  - cbn [on_chunks foldl]. fold (on_chunks chunks (ondataavailable c s)).
    rewrite IH, filter_cons. unfold ondataavailable.
    repeat case_decide; try done.
    cbn. by rewrite <- app_assoc.
Qed.

Lemma on_chunks_frame chunks s :
  audioBlob (on_chunks chunks s) = audioBlob s
  ∧ videoRecorded (on_chunks chunks s) = videoRecorded s
  ∧ trace (on_chunks chunks s) = trace s
  ∧ capturedFrames (on_chunks chunks s) = capturedFrames s.
Proof.
  revert s. induction chunks as [|c chunks IH]; intros s; [done|].
  cbn [on_chunks foldl]. fold (on_chunks chunks (ondataavailable c s)).
  destruct (IH (ondataavailable c s)) as (-> & -> & -> & ->).
  unfold ondataavailable. by destruct (decide _).
Qed.

Lemma string_app_nil_r (a : string) : a +:+ "" = a.
Proof.
  induction a as [|c a IH]; [done|].
  change (String c a +:+ "") with (String c (a +:+ "")). by rewrite IH.
Qed.

Lemma concat_foldr (l : list string) :
  String.concat "" l = foldr String.append "" l.
Proof.
  induction l as [|c [|c' l] IH]; [done| |].
  - cbn. by rewrite string_app_nil_r.
  - change (String.concat "" (c :: c' :: l))
      with (c +:+ "" +:+ String.concat "" (c' :: l)).
    rewrite IH. done.
Qed.

Lemma foldr_nonempty (l : list string) :
  foldr String.append "" (filter (λ c, c ≠ "") l) = foldr String.append "" l.
Proof.
  induction l as [|c l IH]; [done|].
  rewrite filter_cons. case_decide as Hc; cbn.
  - by rewrite IH.
  - by subst c.
Qed.

Lemma foldr_empty (l : list string) :
  foldr String.append "" l = "" ↔ filter (λ c, c ≠ "") l = [].
Proof.
  induction l as [|c l IH]; [done|].
  rewrite filter_cons. case_decide as Hc; cbn.
  - split; [|done]. destruct c; [done|]. simpl. done.
  - by subst c.
Qed.

(** X6: the audio blob set when the recorder has stopped is the
    concatenation, in order, of the chunks delivered since the recording
    began; chunks of size 0 are dropped as they arrive, and when nothing
    but such chunks arrived no blob is set at all, so a blob that is set
    is never empty. The capture buffer is not touched, and the function
    ends as it does without a recorder. *)
Theorem audio_blob_of_chunks chunks s :
  audioChunksRef s = [] →
  let s1 := stopVideoAnswer_stopped (on_chunks chunks s) in
  audioBlob s1
  = (if decide (String.concat "" chunks = "") then audioBlob s
     else Some (String.concat "" chunks))
  ∧ videoRecorded s1 = true
  ∧ trace s1 = trace s ++ [ToastSuccess stop_message]
  ∧ capturedFrames s1 = capturedFrames s
  ∧ (audioBlob s = None → audioBlob s1 ≠ Some "").
Proof.
  intros Hc s1.
  pose proof (on_chunks_chunks chunks s) as Hch. rewrite Hc, app_nil_l in Hch.
  destruct (on_chunks_frame chunks s) as (Hb & Hv & Htr & Hf).
  pose proof (foldr_nonempty chunks) as Hne. rewrite <- !concat_foldr in Hne.
  pose proof (foldr_empty chunks) as Hem. rewrite <- concat_foldr in Hem.
  assert (Hs1 : audioBlob s1
    = (if decide (String.concat "" chunks = "") then audioBlob s
       else Some (String.concat "" chunks))).
  { unfold s1, stopVideoAnswer_stopped. rewrite Hch, <- Hne. unfold Chunk in *.
    destruct (filter _ chunks) as [|c l].
    - cbn. by rewrite Hb.
    - rewrite Hne, decide_False by (intros Hd; by apply Hem in Hd). done. }
  split; [exact Hs1|].
  split_and!.
  - unfold s1, stopVideoAnswer_stopped.
    by destruct (audioChunksRef (on_chunks chunks s)).
  - unfold s1, stopVideoAnswer_stopped.
    destruct (audioChunksRef (on_chunks chunks s)); cbn in *; congruence.
  - unfold s1, stopVideoAnswer_stopped.
    destruct (audioChunksRef (on_chunks chunks s)); cbn in *; congruence.
  - intros Hn. rewrite Hs1. case_decide; congruence.
Qed.

Lemma audio_blob_of_chunks_witness :
  audioBlob (stopVideoAnswer_stopped (on_chunks ["vo"; ""; "ice"] recording_now))
  = Some "voice".
Proof.
  refine (eq_trans (proj1 (audio_blob_of_chunks ["vo"; ""; "ice"]
                             recording_now _)) _).
  - vm_compute. reflexivity.
  - vm_compute. reflexivity.
Defined.

(** ** The clock *)








(** ** The timer *)

Lemma timer_tick_counts tid snap s :
  tasks s !! tid = Some (Interval CbTimer) → 1 < timeLeft s →
  handle (Tick tid snap) s = setTimeLeft (timeLeft s - 1) s.
Proof.
  intros Ht Hl. cbn [handle]. rewrite Ht. unfold timer_tick.
  by rewrite (proj2 (Z.leb_gt _ _)) by lia.
Qed.

Lemma timer_ticks_count tid snaps s :
  tasks s !! tid = Some (Interval CbTimer) →
  Z.of_nat (length snaps) < timeLeft s →
  timer_ticks tid snaps s
  = setTimeLeft (timeLeft s - Z.of_nat (length snaps)) s.
Proof.
  revert s. induction snaps as [|snap snaps IH]; intros s Ht Hl.
  - cbn. rewrite Z.sub_0_r. by destruct s.
  - cbn [timer_ticks foldl].
    fold (timer_ticks tid snaps (handle (Tick tid snap) s)).
    cbn [length] in *.
    rewrite timer_tick_counts by (done || lia).
    rewrite IH by (done || cbn; lia). cbn.
    unfold setTimeLeft. cbn. f_equal. lia.
Qed.

Lemma timer_tick_stops tid snap s :
  tasks s !! tid = Some (Interval CbTimer) → timeLeft s ≤ 1 →
  handle (Tick tid snap) s = setTimeLeft 0 (stopVideoAnswer snap s).
Proof.
  intros Ht Hl. cbn [handle]. rewrite Ht. unfold timer_tick.
  by rewrite (proj2 (Z.leb_le _ _)) by lia.
Qed.

(** After [stopVideoAnswer] the id that [timerRef] held is no interval any
    more, whatever else the table holds under it. *)
Lemma stopVideoAnswer_clears_timer snap tid s :
  timerRef s = Some tid →
  tasks (stopVideoAnswer snap s) !! tid = None
  ∨ tasks (stopVideoAnswer snap s) !! tid = Some (Promise KStopped).
Proof.
  intros Ht. unfold stopVideoAnswer, captureFrame. rewrite ?Ht.
  split_state; cbn in *; simplify_eq;
    repeat first
      [ rewrite lookup_insert_eq | rewrite lookup_delete_eq
      | match goal with
        | |- context [<[?i:=_]> _ !! ?j] =>
            destruct (decide (i = j)); [subst | rewrite lookup_insert_ne by done]
        | |- context [delete ?i _ !! ?j] =>
            destruct (decide (i = j)); [subst | rewrite lookup_delete_ne by done]
        end ]; auto.
Qed.

Lemma stopVideoAnswer_refs snap s :
  timerRef (stopVideoAnswer snap s) = None
  ∧ frameIntervalRef (stopVideoAnswer snap s) = None.
Proof.
  unfold stopVideoAnswer, captureFrame. split_state; cbn in *; done.
Qed.

(** X8: a timer that starts at [n] seconds counts down by one a second
    and on its [n]-th tick, not before, stops the answer by itself: the
    time left is 0, nothing is recorded any more, both interval refs are
    cleared, the timer is no longer pending, and a tick of it that was
    already on its way does nothing. *)
Theorem timer_runs_out tid snaps snap s :
  tasks s !! tid = Some (Interval CbTimer) → timerRef s = Some tid →
  timeLeft s = Z.of_nat (length snaps) + 1 →
  let s1 := timer_ticks tid snaps s in
  let s2 := handle (Tick tid snap) s1 in
  s1 = setTimeLeft 1 s
  ∧ isRecording s1 = isRecording s ∧ tasks s1 = tasks s
  ∧ trace s1 = trace s
  ∧ s2 = setTimeLeft 0 (stopVideoAnswer snap s1)
  ∧ timeLeft s2 = 0 ∧ isRecording s2 = false
  ∧ timerRef s2 = None ∧ frameIntervalRef s2 = None
  ∧ pending_timers s2 !! tid = None
  ∧ (∀ snap', handle (Tick tid snap') s2 = s2).
Proof.
  intros Ht Hr Hl s1 s2.
  assert (H1 : s1 = setTimeLeft 1 s).
  { unfold s1. rewrite timer_ticks_count by (done || lia).
    f_equal. lia. }
  assert (H2 : s2 = setTimeLeft 0 (stopVideoAnswer snap s1)).
  { unfold s2. apply timer_tick_stops; rewrite H1; [exact Ht | done]. }
  assert (Hc : tasks s2 !! tid = None ∨ tasks s2 !! tid = Some (Promise KStopped)).
  { rewrite H2. apply (stopVideoAnswer_clears_timer snap tid s1).
    by rewrite H1. }
  destruct (stopVideoAnswer_refs snap s1) as [Hr1 Hr2].
  split_and!; try (by rewrite H1); try (by rewrite H2).
  - rewrite H2. apply (stopVideoAnswer_isRecording snap s1).
  - unfold pending_timers. apply map_lookup_filter_None.
    destruct Hc as [Hc|Hc]; [by left|]. right. intros t Ht'.
    rewrite Hc in Ht'. by simplify_eq.
  - intros snap'. cbn [handle]. by destruct Hc as [-> | ->].
Qed.

Lemma timer_runs_out_witness :
  let s2 := handle (Tick 11 (shot "f1"))
              (timer_ticks 11 (replicate 89 no_shot) recording_now) in
  timeLeft s2 = 0 ∧ isRecording s2 = false
  ∧ pending_timers s2 !! 11%positive = None.
Proof.
  cbv zeta.
  pose proof (timer_runs_out 11 (replicate 89 no_shot) (shot "f1")
                recording_now) as H.
  assert (Ht : tasks recording_now !! 11%positive = Some (Interval CbTimer))
    by (vm_compute; reflexivity).
  assert (Hr : timerRef recording_now = Some 11%positive)
    by (vm_compute; reflexivity).
  assert (Hl : timeLeft recording_now
               = Z.of_nat (length (replicate 89 no_shot)) + 1)
    by (vm_compute; reflexivity).
  specialize (H Ht Hr Hl). cbv zeta in H.
  destruct H as (_ & _ & _ & _ & _ & H0 & Hrec & _ & _ & Hp & _).
  split_and!; [exact H0 | exact Hrec | exact Hp].
Defined.

(** ** What goes out to the relay *)

Ltac sent_tac :=
  unfold sent_ok in *; split_state; cbn in *;
  rewrite ?Forall_app, ?Forall_cons, ?Forall_nil;
  repeat split; cbn; auto using slice_last_length with lia.

Lemma stopCamera_sent s : sent_ok s → sent_ok (stopCamera s).
Proof.
  unfold sent_ok. rewrite stopCamera_trace, Forall_app. intros H.
  split; [done|]. generalize (tracks_of (streamRef s)
                              ++ tracks_of (audioStreamRef s)).
  intros l. induction l; by constructor.
Qed.

Lemma start_needs_cv s :
  offered BStartInterview s = true → cvText s ≠ "".
Proof.
  cbn. intros H Hcv. rewrite (bool_decide_eq_true_2 _ Hcv) in H.
  by rewrite orb_true_r, andb_false_r in H.
Qed.

Lemma click_sent b snap s :
  offered b s = true → sent_ok s → sent_ok (click b snap s).
Proof.
  intros Hoff H. destruct b; cbn [click].
  - pose proof (start_needs_cv s Hoff). unfold startInterview, http, await, spawn.
    sent_tac.
  - unfold submitTextAnswer, http, await, spawn. sent_tac.
  - unfold startCamera, await, spawn. sent_tac.
  - unfold startVideoAnswer, startCamera, sva_reset, sva_countdown, setTimeout,
      await, spawn. sent_tac.
  - unfold stopVideoAnswer, captureFrame, stop_done, await, spawn. sent_tac.
  - unfold submitWithAudio, submitWithAudio_send, http, await, spawn. sent_tac.
  - unfold submitWithManualTranscript, http, await, spawn. sent_tac.
  - unfold resetRecordingState. sent_tac.
  - unfold nextQuestion. destruct (_ <? _).
    + unfold resetRecordingState. sent_tac.
    + unfold finishInterview, http, await, spawn. cbn -[stopCamera].
      apply stopCamera_sent in H. unfold sent_ok in *. cbn -[stopCamera].
      rewrite Forall_app. split; [done|]. by repeat constructor.
  - unfold resetInterview. cbn -[stopCamera]. by apply stopCamera_sent.
Qed.

Lemma tick_sent id snap s : sent_ok s → sent_ok (handle (Tick id snap) s).
Proof.
  intros H. cbn [handle].
  destruct (tasks s !! id) as [[[]|k|k]|] eqn:Hid; try done.
  - unfold frame_tick. sent_tac.
  - unfold timer_tick, stopVideoAnswer, captureFrame, stop_done, await, spawn.
    sent_tac.
  - destruct k; cbn [wake]; try done;
      unfold sva_reset, sva_countdown, sva_record, setInterval, setTimeout,
        spawn; sent_tac.
Qed.

Lemma settle_sent id a s : sent_ok s → sent_ok (handle (Settle id a) s).
Proof.
  intros H. cbn [handle].
  destruct (tasks s !! id) as [[cb|k|k]|] eqn:Hid; try done.
  destruct k, a as [o|g|b|]; cbn [resume]; try done;
    try (unfold fetchCvJd_settled, start_settled, submit_settled,
           finish_settled, finally_loading, stopVideoAnswer_stopped,
           stop_done, resetRecordingState;
         unfold submitWithAudio_send, http, await, spawn;
         sent_tac; fail).
  - unfold startCamera_video. destruct g as [n|]; [|sent_tac].
    pose proof (acquire_frame n (set_tasks (delete id (tasks s)) s))
      as (_ & _ & Htr & _).
    destruct (acquire n _) as [ts s']. cbn in Htr.
    unfold sent_ok in *. unfold await, spawn.
    destruct (videoRef _); cbn; rewrite Htr, Forall_app; split; try done;
      by repeat constructor.
  - unfold startCamera_audio. destruct g as [n|].
    + pose proof (acquire_frame n (set_tasks (delete id (tasks s)) s))
        as (_ & _ & Htr & _).
      destruct (acquire n _) as [ts s']. cbn in Htr.
      unfold sent_ok in *. unfold setTimeout, spawn.
      destruct answer; cbn; rewrite Htr, ?Forall_app; try split; try done;
        by repeat constructor.
    + unfold setTimeout, spawn. sent_tac.
Qed.

Lemma step_sent e s : sent_ok s → sent_ok (step s e).
Proof.
  intros H. unfold step, sent_ok. rewrite commit_trace. fold (sent_ok (handle e s)).
  destruct e.
  - cbn [handle]. destruct (offered b s) eqn:Hoff; [by apply click_sent | done].
  - cbn [handle]. by destruct (_ && _).
  - cbn [handle]. by destruct (_ && _).
  - cbn [handle]. by destruct (interview_view s).
  - by apply tick_sent.
  - by apply settle_sent.
  - cbn [handle]. destruct (recorder_delivers s); [|done].
    unfold ondataavailable. by destruct (decide _).
  - cbn [handle]. destruct (mountedRef s); [|done].
    unfold unmount.
    pose proof (stopCamera_sent (set_mountedRef false s) H) as H'.
    destruct (timerRef _); [|done].
    unfold clearInterval, sent_ok in *. cbn -[stopCamera].
    rewrite Forall_app. split; [done|]. by repeat constructor.
Qed.

(** X9: in every run of the component, from mount on and whatever the
    user and the environment do, each start request carries a resume that
    is not empty and asks for three questions, and each submitted answer
    carries at most three frames (although the capture buffer can hold
    four). *)
Theorem requests_well_formed env es :
  Forall well_formed (trace (run es (init env))).
Proof.
  assert (H : ∀ s, sent_ok s → sent_ok (run es s)).
  { induction es as [|e es IH]; intros s Hs; [done|].
    cbn. apply IH. by apply step_sent. }
  apply H. unfold sent_ok. cbn. by repeat constructor.
Qed.

(** ** The buttons *)

Lemma commit_idem s : commit (commit s) = commit s.
Proof.
  assert (Hp : recording_phase (commit s) = recording_phase s)
    by (unfold commit; destruct (recording_phase s) eqn:Hr, (videoRef s);
        exact Hr).
  unfold commit at 1. rewrite Hp. unfold commit.
  destruct (recording_phase s), (videoRef s) eqn:Hv; rewrite ?Hv; done.
Qed.

Lemma offered_commit b s : offered b (commit s) = offered b s.
Proof.
  unfold commit. destruct (recording_phase s), (videoRef s), b; done.
Qed.

(** The re-render writes [videoRef] and nothing else. *)
Lemma commit_fields s :
  loading (commit s) = loading s
  ∧ streamRef (commit s) = streamRef s
  ∧ audioStreamRef (commit s) = audioStreamRef s
  ∧ sessionId (commit s) = sessionId s
  ∧ questions (commit s) = questions s
  ∧ currentQuestionIdx (commit s) = currentQuestionIdx s
  ∧ tasks (commit s) = tasks s
  ∧ next_id (commit s) = next_id s
  ∧ mountedRef (commit s) = mountedRef s
  ∧ cameraOn (commit s) = cameraOn s
  ∧ textAnswer (commit s) = textAnswer s
  ∧ transcriptText (commit s) = transcriptText s
  ∧ capturedFrames (commit s) = capturedFrames s
  ∧ currentEvaluation (commit s) = currentEvaluation s
  ∧ audioBlob (commit s) = audioBlob s
  ∧ result (commit s) = result s.
Proof.
  unfold commit. destruct (recording_phase s), (videoRef s);
    repeat split; reflexivity.
Qed.

(** Take a conjunction of tests apart. *)
Ltac bools :=
  repeat match goal with
    | H : _ && _ = true |- _ => apply andb_prop in H as [? ?]
    | H : negb _ = true |- _ => apply negb_true_iff in H
    | H : _ || _ = false |- _ => apply orb_false_elim in H as [? ?]
    | H : bool_decide _ = true |- _ => apply bool_decide_eq_true_1 in H
    | H : bool_decide _ = false |- _ => apply bool_decide_eq_false_1 in H
    end.

Lemma click_disarms b snap s :
  waits b = true → offered b s = true → offered b (click b snap s) = false.
Proof.
  intros Hw Hoff. destruct b; try done; cbn [click]; cbn in Hoff; bools.
  - cbn. by rewrite andb_false_r.
  - unfold submitTextAnswer. case_decide; [done|]. cbn.
    by rewrite andb_false_r.
  - unfold recording_phase, interview_view in *. bools.
    assert (Hc : cameraOn s = true) by done.
    assert (Hm : mountedRef s = true) by done.
    unfold startVideoAnswer. rewrite Hc. unfold sva_reset, sva_countdown.
    cbn. rewrite Hm. cbn. change (0 <? Z.of_nat 3) with true.
    rewrite orb_true_r. apply andb_false_r.
  - cbn [offered]. unfold recording_phase, interview_view.
    rewrite stopVideoAnswer_isRecording. by rewrite !andb_false_r.
  - unfold submitWithAudio. destruct (audioBlob s); cbn;
      by rewrite andb_false_r.
  - unfold submitWithManualTranscript. case_decide; [done|]. cbn.
    by rewrite andb_false_r.
  - unfold review_phase, resetRecordingState. cbn. apply andb_false_r.
  - unfold resetInterview. cbn -[stopCamera]. by rewrite andb_false_r.
Qed.

(** X10: every button that starts a relay call, a countdown, a stop, a
    re-record or a reset takes itself off the screen (or is disabled) by
    the click: pressed again at once, before anything else happens, it
    does nothing. *)
Theorem pressed_button_disarms b snap snap' s :
  waits b = true → offered b s = true →
  let s1 := step s (Click b snap) in
  offered b s1 = false ∧ step s1 (Click b snap') = s1.
Proof.
  intros Hw Hoff s1.
  assert (H1 : offered b s1 = false).
  { unfold s1, step. rewrite offered_commit. cbn [handle]. rewrite Hoff.
    by apply click_disarms. }
  split; [done|]. unfold step at 1. cbn [handle]. rewrite H1.
  unfold s1, step. apply commit_idem.
Qed.

Lemma pressed_button_disarms_witness :
  let s := step at_interview (Mode true) in
  let s1 := run [TypeAnswer "I led a migration"; Click BSubmitText no_shot] s in
  step s1 (Click BSubmitText no_shot) = s1.
Proof.
  cbv zeta.
  refine (proj2 (pressed_button_disarms BSubmitText no_shot no_shot
                   (step (step at_interview (Mode true))
                         (TypeAnswer "I led a migration")) _ _)).
  - reflexivity.
  - vm_compute. reflexivity.
Defined.

Lemma finishInterview_keeps s :
  currentEvaluation (finishInterview s) = currentEvaluation s
  ∧ stage (finishInterview s) = stage s
  ∧ questions (finishInterview s) = questions s
  ∧ currentQuestionIdx (finishInterview s) = currentQuestionIdx s
  ∧ mountedRef (finishInterview s) = mountedRef s
  ∧ sessionId (finishInterview s) = sessionId s.
Proof.
  unfold finishInterview, http, await, spawn. cbn -[stopCamera].
  unfold stopCamera. split_state; cbn -[stop_tracks] in *;
    rewrite ?stop_tracks_eq; done.
Qed.

(** X11: the "finish" button, which is the "next" button on the last
    question, does not take itself off the screen: [finishInterview] sets
    [loading], which that button does not look at. Pressed again before
    the relay has answered, it sends the finish request a second time. *)
Theorem finish_button_stays_armed snap snap' s :
  offered BNext s = true → last_question s →
  let s1 := step s (Click BNext snap) in
  let s2 := step s1 (Click BNext snap') in
  loading s1 = true
  ∧ offered BNext s1 = true
  ∧ trace s2 = trace s1 ++ [HttpCall (PostFinish (sessionId s))]
  ∧ last (trace s1) = Some (HttpCall (PostFinish (sessionId s))).
Proof.
  intros Hoff Hlast s1 s2.
  assert (Hn : nextQuestion s = finishInterview s).
  { unfold nextQuestion. by rewrite (proj2 (Z.ltb_nlt _ _)) by exact Hlast. }
  assert (E1 : s1 = commit (finishInterview s)).
  { unfold s1, step. cbn [handle]. rewrite Hoff. cbn [click]. by rewrite Hn. }
  destruct (finishInterview_keeps s) as (Hev & Hst & Hq & Hi & Hm & Hsid).
  assert (Hoff1 : offered BNext s1 = true).
  { rewrite E1, offered_commit. cbn [offered]. unfold interview_view.
    rewrite Hev, Hst, Hq, Hi, Hm. exact Hoff. }
  assert (Hlast1 : last_question (finishInterview s)).
  { unfold last_question. by rewrite Hq, Hi. }
  assert (Htr : ∀ x, trace (finishInterview x)
                     = trace (stopCamera x) ++ [HttpCall (PostFinish (sessionId x))]).
  { intros x. unfold finishInterview, http, await, spawn.
    by cbn -[stopCamera]. }
  split_and!.
  - rewrite E1. rewrite (proj1 (commit_fields _)).
    unfold finishInterview, http, await, spawn. by cbn -[stopCamera].
  - done.
  - unfold s2, step. cbn [handle]. rewrite Hoff1. cbn [click].
    rewrite commit_trace, E1.
    assert (Hn1 : nextQuestion (commit (finishInterview s))
                  = finishInterview (commit (finishInterview s))).
    { unfold nextQuestion.
      rewrite (proj2 (Z.ltb_nlt _ _)); [done|].
      destruct (commit_fields (finishInterview s))
        as (_ & _ & _ & _ & Hq' & Hi' & _).
      rewrite Hq', Hi'. exact Hlast1. }
    rewrite Hn1, Htr, stopCamera_trace, commit_trace.
    assert (Hr : streamRef (commit (finishInterview s)) = None
                 ∧ audioStreamRef (commit (finishInterview s)) = None
                 ∧ sessionId (commit (finishInterview s)) = sessionId s).
    { destruct (stopCamera_refs s) as (Hs & Ha & _).
      destruct (commit_fields (finishInterview s))
        as (_ & -> & -> & -> & _).
      unfold finishInterview, http, await, spawn in *.
      cbn -[stopCamera] in *. done. }
    destruct Hr as (-> & -> & ->). cbn. by rewrite app_nil_r.
  - rewrite E1, commit_trace, Htr. by rewrite last_snoc.
Qed.

Lemma finish_button_stays_armed_witness :
  let s1 := step answered (Click BNext no_shot) in
  trace (step s1 (Click BNext no_shot))
  = trace s1 ++ [HttpCall (PostFinish (Some "session-1"))].
Proof.
  cbv zeta.
  pose proof (finish_button_stays_armed no_shot no_shot answered) as H.
  assert (Hoff : offered BNext answered = true) by (vm_compute; reflexivity).
  assert (Hl : last_question answered) by (vm_compute; discriminate).
  specialize (H Hoff Hl). cbv zeta in H.
  destruct H as (_ & _ & Htr & _). exact Htr.
Defined.

(** X12: at any time at most one of the buttons is offered, "next" and
    "record again" apart: the start button, the text submit, the camera
    button, "begin answer", "stop", the two submits of the review screen
    and the reset button exclude each other. *)
Theorem one_action_at_a_time b1 b2 s :
  primary b1 = true → primary b2 = true → b1 ≠ b2 →
  offered b1 s = true → offered b2 s = false.
Proof.
  intros Hp1 Hp2 Hne H1.
  destruct (offered b2 s) eqn:H2; [|done]. exfalso.
  destruct b1; try done; destruct b2; try done;
    cbn in H1, H2; unfold recording_phase, review_phase, interview_view in *;
    bools; try congruence;
    match goal with
    | H : is_Some _ |- _ => destruct H; congruence
    end.
Qed.

Lemma one_action_at_a_time_witness :
  offered BStartAnswer at_interview = false
  ∧ offered BSubmitText at_interview = false.
Proof.
  split.
  - apply (one_action_at_a_time BStartCamera BStartAnswer at_interview);
      [reflexivity | reflexivity | discriminate | vm_compute; reflexivity].
  - apply (one_action_at_a_time BStartCamera BSubmitText at_interview);
      [reflexivity | reflexivity | discriminate | vm_compute; reflexivity].
Defined.

(** ** Relay calls that fail *)

Lemma commit_is_set s : ∃ v, commit s = set_videoRef v s.
Proof.
  unfold commit. destruct (recording_phase s), (videoRef s) eqn:Hv; eauto.
Qed.




(** ** Answers the relay accepts *)



(** ** After unmount *)



(** ** Releasing the devices *)

(** X16: [stopCamera] is idempotent: called on the state it left, it
    changes nothing, stops no track and logs nothing. *)
Theorem stopCamera_idempotent s :
  stopCamera (stopCamera s) = stopCamera s.
Proof.
  unfold stopCamera at 1.
  destruct (stopCamera_refs s) as (Hs & Ha & Hc & Hr).
  rewrite Hs. cbn match. rewrite Ha. cbn match.
  assert (Hv : videoRef (stopCamera s) = None
               ∨ videoRef (stopCamera s) = Some {| srcObject := None |}).
  { unfold stopCamera. destruct_sys s. destruct x23, x24, x22;
      repeat (cbn -[stop_tracks]; rewrite ?stop_tracks_eq); auto. }
  generalize dependent (stopCamera s). intros t Hs Ha Hc Hr Hv.
  destruct_sys t. cbn in *. subst.
  destruct Hv as [-> | ->]; reflexivity.
Qed.

(** X17: in every run from mount in which no camera request is answered
    over a stream already held, each live track is held by one of the two
    stream refs, so that unmounting, resetting or finishing, each of which
    begins with [stopCamera], leaves no track live. *)
Theorem teardown_releases_all env es :
  race_free_run es (init env) →
  let s := run es (init env) in
  owned s
  ∧ live (unmount s) = ∅
  ∧ (mountedRef s = true → live (step s Unmount) = ∅)
  ∧ live (resetInterview s) = ∅
  ∧ live (finishInterview s) = ∅.
Proof.
  intros Hfree s.
  assert (Ho : owned s) by (apply run_owned; [apply init_owned | done]).
  split_and!; [done | by apply unmount_releases | |
               by apply resetInterview_releases |].
  - intros Hm. unfold step. rewrite commit_live. cbn [handle]. rewrite Hm.
    by apply unmount_releases.
  - unfold finishInterview, http, await, spawn. cbn -[stopCamera].
    by apply stopCamera_releases.
Qed.

Lemma teardown_releases_all_witness :
  live recording_now = {[4%positive; 6%positive]}
  ∧ live (step recording_now Unmount) = ∅.
Proof.
  split; [vm_compute; reflexivity|].
  pose proof (teardown_releases_all RecOk
    [Settle 1 (Http (Resolved served));
     Click BStartInterview no_shot;
     Settle 2 (Http (Resolved served));
     Mode false;
     Click BStartCamera no_shot;
     Settle 3 (Media (Some 1%nat));
     Settle 5 (Media (Some 1%nat));
     Click BStartAnswer no_shot;
     Tick 7 no_shot; Tick 8 no_shot; Tick 9 no_shot]) as H.
  assert (Hfree : race_free_run
    [Settle 1 (Http (Resolved served));
     Click BStartInterview no_shot;
     Settle 2 (Http (Resolved served));
     Mode false;
     Click BStartCamera no_shot;
     Settle 3 (Media (Some 1%nat));
     Settle 5 (Media (Some 1%nat));
     Click BStartAnswer no_shot;
     Tick 7 no_shot; Tick 8 no_shot; Tick 9 no_shot] (init RecOk))
    by (vm_compute; repeat split; reflexivity).
  specialize (H Hfree). cbv zeta in H.
  destruct H as (_ & _ & Hu & _).
  apply Hu. vm_compute. reflexivity.
Defined.

Lemma commit_mounted s : mountedRef (commit s) = mountedRef s.
Proof. apply commit_fields. Qed.

Lemma offered_unmounted b s : mountedRef s = false → offered b s = false.
Proof.
  intros Hm. destruct b; cbn [offered];
    unfold recording_phase, review_phase, interview_view; by rewrite Hm.
Qed.

Lemma acquire_mounted n s :
  mountedRef (acquire n s).2 = mountedRef s
  ∧ live s ⊆ live (acquire n s).2.
Proof.
  revert s. induction n as [|n IH]; intros s; cbn; [done|].
  specialize (IH (set_next_id (Pos.succ (next_id s))
                    (set_live ({[next_id s]} ∪ live s) s))).
  destruct (acquire n _) as [ts s']. cbn in *.
  destruct IH as (-> & Hl). split; [done|]. set_solver.
Qed.

Ltac same_cells := intros; split_state; cbn in *; split; congruence.

Lemma step_unmounted e s :
  mountedRef s = false →
  mountedRef (step s e) = false ∧ live s ⊆ live (step s e).
Proof.
  intros Hm. unfold step. rewrite commit_live, commit_mounted.
  assert (Hiv : interview_view s = false)
    by (unfold interview_view; by rewrite Hm).
  destruct e; cbn [handle].
  - by rewrite offered_unmounted.
  - by rewrite Hiv.
  - unfold review_phase. by rewrite Hiv.
  - by rewrite Hiv.
  - destruct (tasks s !! id) as [[[]|k|k]|] eqn:Hid; try done.
    + unfold frame_tick. destruct (truthy _); done.
    + assert (H : mountedRef (timer_tick snap s) = mountedRef s
                  ∧ live (timer_tick snap s) = live s).
      { unfold timer_tick, stopVideoAnswer, captureFrame. same_cells. }
      destruct H as [-> ->]. done.
    + assert (H : mountedRef (wake k (set_tasks (delete id (tasks s)) s))
                  = mountedRef s
                  ∧ live (wake k (set_tasks (delete id (tasks s)) s)) = live s).
      { destruct k; cbn [wake]; try done;
          unfold sva_reset, sva_countdown, sva_record; same_cells. }
      destruct H as [-> ->]. done.
  - destruct (tasks s !! id) as [[cb|k|k]|] eqn:Hid; try done.
    set (s0 := set_tasks (delete id (tasks s)) s).
    assert (H0 : mountedRef s0 = mountedRef s ∧ live s0 = live s) by done.
    destruct H0 as [Hm0 Hl0]. rewrite <- Hm0, <- Hl0 in *. clearbody s0.
    destruct k, a as [o|g|b|]; cbn [resume]; try done;
      try (assert (H : ∀ x y, mountedRef x = mountedRef y ∧ live x = live y →
                      mountedRef y = false →
                      mountedRef x = false ∧ live y ⊆ live x)
             by (by intros x y [-> ->]);
           apply H; [|done]; clear H;
           try destruct b;
           unfold fetchCvJd_settled, start_settled, submit_settled,
             finish_settled, finally_loading, submitWithAudio_send,
             stopVideoAnswer_stopped, resetRecordingState;
           same_cells).
    + unfold startCamera_video. destruct g as [n|]; [|done].
      pose proof (acquire_mounted n s0) as [Hma Hla].
      destruct (acquire n s0) as [ts s1]. cbn in Hma, Hla.
      destruct (videoRef _); cbn; rewrite Hma; done.
    + unfold startCamera_audio. destruct g as [n|].
      * pose proof (acquire_mounted n s0) as [Hma Hla].
        destruct (acquire n s0) as [ts s1]. cbn in Hma, Hla.
        destruct answer; cbn; rewrite Hma; done.
      * destruct answer; done.
  - destruct (recorder_delivers s); [|done].
    unfold ondataavailable. by destruct (decide _).
  - by rewrite Hm.
Qed.

(** X18: once the component has unmounted it stays so, and no track is
    ever stopped again, whatever happens: [stopCamera] runs only from
    buttons, none of which is offered any more, and from the cleanup that
    has already run. A camera or microphone request that is granted after
    the unmount is still taken up, so its tracks stay live for good. *)
Theorem unmounted_never_releases es s :
  mountedRef s = false →
  mountedRef (run es s) = false ∧ live s ⊆ live (run es s).
Proof.
  revert s. induction es as [|e es IH]; intros s Hm; [done|].
  destruct (step_unmounted e s Hm) as [Hm1 Hl1].
  destruct (IH (step s e) Hm1) as [Hm2 Hl2].
  cbn. split; [done|]. set_solver.
Qed.

Lemma unmounted_never_releases_witness :
  let s := run [Click BStartCamera no_shot; Unmount] at_interview in
  let s' := run [Settle 3 (Media (Some 1%nat)); Settle 5 (Media (Some 1%nat));
                 Unmount] s in
  live s = ∅ ∧ mountedRef s' = false
  ∧ live s' = {[4%positive; 6%positive]}.
Proof.
  cbv zeta. split; [vm_compute; reflexivity|].
  split; [|vm_compute; reflexivity].
  apply (unmounted_never_releases
           [Settle 3 (Media (Some 1%nat)); Settle 5 (Media (Some 1%nat));
            Unmount]
           (run [Click BStartCamera no_shot; Unmount] at_interview)).
  vm_compute. reflexivity.
Defined.

(** ** The setup screen *)

(** X19: the start button is offered after the resume fetch has settled
    exactly when the fetch succeeded with a resume that is not empty;
    before that, while the fetch is pending, it is not offered; either
    way the fetch ends the "checking" state. The job description plays no
    part. *)
Theorem start_needs_resume env o :
  let s1 := step (init env) (Settle 1 (Http o)) in
  offered BStartInterview (init env) = false
  ∧ cvLoading s1 = false
  ∧ (offered BStartInterview s1 = true
     ↔ ∃ d, o = Resolved d ∧ data_success d = true
            ∧ or_else (data_cv_text d) "" ≠ "")
  ∧ (∀ d, o = Resolved d → data_success d = true →
          cvText s1 = or_else (data_cv_text d) ""
          ∧ jdText s1 = or_else (data_jd_text d) "").
Proof.
  intros s1.
  assert (E : s1 = commit (fetchCvJd_settled o
                             (set_tasks (delete 1%positive (tasks (init env)))
                                        (init env)))).
  { unfold s1, step. cbn [handle]. unfold init, fetchCvJd, http, await, spawn.
    cbn. by rewrite lookup_insert_eq. }
  destruct (commit_is_set (fetchCvJd_settled o
              (set_tasks (delete 1%positive (tasks (init env))) (init env))))
    as [v Ev].
  rewrite Ev in E. rewrite E. clear E Ev s1. unfold fetchCvJd_settled.
  destruct o as [d|detail m]; [destruct (data_success d) eqn:Hd|]; cbn.
  - split_and!; try done.
    + split.
      * intros H. exists d. bools. done.
      * intros (d' & [= <-] & _ & Hcv).
        by rewrite (bool_decide_eq_false_2 _ Hcv).
    + by intros d' [= <-] _.
  - split_and!; try done.
    + split; [done|]. intros (d' & [= <-] & Hd' & _). congruence.
    + intros d' [= <-] Hd'. congruence.
  - split_and!; try done. split; [done|]. by intros (d' & [=] & _).
Qed.

(** ** Recording again *)

Lemma run_snoc es e s : run (es ++ [e]) s = step (run es s) e.
Proof. unfold run. by rewrite foldl_app. Qed.

(** What is on screen is what the last re-render left. *)
Lemma reachable_committed s : reachable s → commit s = s.
Proof.
  intros (env & es & ->).
  destruct es as [|e es _] using rev_ind; [done|].
  rewrite run_snoc. apply commit_idem.
Qed.

(** X20: "record again" brings back the recording screen with a new
    preview element that shows no stream, while the camera stays on and
    its stream stays held: [startCamera], the one place that attaches a
    stream to the preview, is not called again while [cameraOn]. Every
    frame capture then yields nothing, so the frame interval and the
    final sample of the next recording add no frame. *)
Theorem rerecord_blank_preview snap snaps snap' s :
  reachable s → offered BReRecord s = true →
  let s1 := step s (Click BReRecord snap) in
  videoRef s = None
  ∧ videoRef s1 = Some {| srcObject := None |}
  ∧ cameraOn s1 = cameraOn s ∧ streamRef s1 = streamRef s
  ∧ live s1 = live s
  ∧ capturedFrames s1 = []
  ∧ captureFrame snap' s1 = None
  ∧ frame_ticks snaps s1 = s1
  ∧ final_frame snap' s1 = []
  ∧ (cameraOn s = true → isRecording s = false → loading s = false →
     countdown s ≤ 0 →
     offered BStartAnswer s1 = true ∧ offered BStartCamera s1 = false).
Proof.
  intros Hr Hoff s1.
  pose proof (reachable_committed s Hr) as Hc.
  assert (Hrev : review_phase s = true) by exact Hoff.
  apply andb_prop in Hrev as [Hiv Hvr].
  assert (Hrec : recording_phase s = false).
  { unfold recording_phase. rewrite Hvr. apply andb_false_r. }
  assert (Hv : videoRef s = None).
  { rewrite <- Hc. unfold commit. by rewrite Hrec. }
  assert (Hrec1 : recording_phase (resetRecordingState s) = true).
  { unfold recording_phase.
    change (interview_view (resetRecordingState s)) with (interview_view s).
    change (useTextMode (resetRecordingState s)) with (useTextMode s).
    by rewrite Hiv. }
  assert (E : s1 = set_videoRef (Some {| srcObject := None |})
                     (resetRecordingState s)).
  { unfold s1, step. cbn [handle]. rewrite Hoff. cbn [click].
    unfold commit. rewrite Hrec1.
    unfold resetRecordingState at 1. cbn. by rewrite Hv. }
  clearbody s1.
  assert (Hcap : ∀ x, captureFrame x s1 = None) by (by rewrite E).
  split_and!; try (by rewrite E); try exact Hv.
  - assert (Hft : ∀ x, frame_tick x s1 = s1)
      by (intros x; unfold frame_tick; by rewrite Hcap).
    induction snaps as [|x snaps IH]; [done|].
    unfold frame_ticks in *. cbn [foldl]. rewrite Hft. exact IH.
  - intros Hcam Hir Hl Hcd. rewrite E. cbn [offered].
    change (recording_phase (set_videoRef _ (resetRecordingState s)))
      with (recording_phase (resetRecordingState s)).
    rewrite Hrec1. cbn. rewrite Hcam, Hir, Hl. cbn.
    by rewrite (proj2 (Z.ltb_ge _ _)) by lia.
Qed.

Lemma rerecord_blank_preview_witness :
  let s1 := step recorded (Click BReRecord no_shot) in
  cameraOn s1 = true ∧ captureFrame (shot "f5") s1 = None
  ∧ offered BStartAnswer s1 = true.
Proof.
  cbv zeta.
  pose proof (rerecord_blank_preview no_shot [] (shot "f5") recorded) as H.
  assert (Hr : reachable recorded) by apply session_reachable.
  assert (Hoff : offered BReRecord recorded = true)
    by (vm_compute; reflexivity).
  specialize (H Hr Hoff). cbv zeta in H.
  destruct H as (_ & _ & Hc & _ & _ & _ & Hcap & _ & _ & Hb).
  split_and!.
  - etransitivity; [exact Hc|]. vm_compute. reflexivity.
  - exact Hcap.
  - apply Hb; vm_compute; (reflexivity || discriminate).
Defined.

(** ** The error boundary *)


(** ** The score badge *)

(** X22: a badge is red below 6, yellow from 6 and green from 8, so a
    higher score never gets a worse colour; and since every badge is
    given [score || 5], a score that is missing or 0 is shown as 5/10 in
    red, and no badge ever shows 0. *)
Theorem score_badge (p q : Q) :
  (Qle p q → (rank (getColor p) ≤ rank (getColor q))%nat)
  ∧ (getColor q = Green ↔ Qle 8 q)
  ∧ (getColor q = Red ↔ Qlt q 6)
  ∧ score_or_5 None = 5%Q ∧ score_or_5 (Some 0%Q) = 5%Q
  ∧ getColor (score_or_5 None) = Red
  ∧ (∀ score, ¬ Qeq (score_or_5 score) 0)
  ∧ (¬ Qeq q 0 → score_or_5 (Some q) = q).
Proof.
  unfold getColor.
  split_and!.
  - intros Hpq.
    destruct (Qle_bool 8 p) eqn:H8p, (Qle_bool 6 p) eqn:H6p,
             (Qle_bool 8 q) eqn:H8q, (Qle_bool 6 q) eqn:H6q; cbn; try lia;
      rewrite ?Qle_bool_iff in *; exfalso;
      repeat match goal with
        | H : Qle_bool _ _ = false |- _ =>
            apply not_true_iff_false in H; rewrite Qle_bool_iff in H
        end.
    all: first [ apply H8q; apply (Qle_trans _ p); assumption
               | apply H6q; apply (Qle_trans _ p); assumption ].
  - destruct (Qle_bool 8 q) eqn:H8; [by rewrite <- Qle_bool_iff|].
    split; [by destruct (Qle_bool 6 q)|].
    intros H. apply Qle_bool_iff in H. congruence.
  - destruct (Qle_bool 8 q) eqn:H8, (Qle_bool 6 q) eqn:H6;
      rewrite ?Qle_bool_iff in *;
      repeat match goal with
        | H : Qle_bool _ _ = false |- _ =>
            apply not_true_iff_false in H; rewrite Qle_bool_iff in H
        end.
    + split; [done|]. intros H. by apply Qlt_not_le in H.
    + split; [done|]. intros H. exfalso. apply H6.
      apply (Qle_trans 6 8 q); [vm_compute; discriminate | assumption].
    + split; [done|]. intros H. by apply Qlt_not_le in H.
    + split; [|done]. intros _. by apply Qnot_le_lt.
  - done.
  - done.
  - done.
  - intros [x|]; cbn; [|done].
    destruct (Qeq_bool x 0) eqn:Hx; [done|].
    by apply Qeq_bool_neq.
  - intros Hq. cbn. destruct (Qeq_bool q 0) eqn:Hx; [|done].
    by apply Qeq_bool_eq in Hx.
Qed.

Lemma score_badge_witness :
  (rank (getColor 5) ≤ rank (getColor (15 # 2)))%nat
  ∧ getColor (15 # 2) = Yellow ∧ getColor 8 = Green.
Proof.
  split_and!; [|reflexivity..].
  apply (score_badge 5 (15 # 2)). vm_compute. discriminate.
Defined.

(** ** White space *)















(** ** The tab bar *)

(** X24: [renderTab] shows the interview component under the id
    'interview' and under no other; every id of the tab bar has a view of
    its own, and an id that is not on the bar shows the analysis tab. *)
Theorem renderTab_views activeTab :
  (renderTab activeTab = InterviewTab ↔ activeTab = "interview")
  ∧ NoDup (map (λ tab, renderTab tab.1) tabs)
  ∧ (activeTab ∉ map fst tabs → renderTab activeTab = AnalyzeTab).
Proof.
  split_and!.
  - unfold renderTab. repeat case_decide; split; intros; congruence.
  - vm_compute. repeat constructor; rewrite ?elem_of_cons, ?elem_of_nil;
      intuition discriminate.
  - intros H. unfold renderTab. repeat case_decide; try done; subst;
      exfalso; apply H; cbn; repeat constructor.
Qed.

(** ** Reading the audio blob *)

(** X25: when reading the audio blob fails, [submitWithAudio] sends
    nothing: it shows the error, turns [loading] off, and leaves the
    recording as it is, blob, frames and transcript, with the submit
    button offered again. *)
Theorem audio_read_failure snap s :
  offered BSubmitAudio s = true →
  let s1 := step s (Click BSubmitAudio snap) in
  let s2 := step s1 (Settle (next_id s) (Encoded None)) in
  (∃ blob, audioBlob s = Some blob
     ∧ trace s2 = trace s ++ [ReadBlob blob; ToastError "Lỗi gửi câu trả lời!"])
  ∧ loading s1 = true ∧ loading s2 = false
  ∧ offered BSubmitAudio s2 = true
  ∧ audioBlob s2 = audioBlob s ∧ capturedFrames s2 = capturedFrames s
  ∧ transcriptText s2 = transcriptText s ∧ videoRecorded s2 = videoRecorded s
  ∧ currentEvaluation s2 = None.
Proof.
  intros Hoff s1 s2. unfold s2, s1, step. cbn [handle]. rewrite Hoff.
  destruct (commit_is_set (click BSubmitAudio snap s)) as [v1 E1].
  rewrite E1. clear E1.
  assert (Hm : mountedRef s = true).
  { cbn in Hoff. unfold review_phase, interview_view in *. by bools. }
  assert (Hl : loading s = false) by (cbn in Hoff; by bools).
  assert (Hoff' : offered BSubmitAudio (setLoading false s) = true).
  { cbn in Hoff |- *. rewrite Hl in Hoff. exact Hoff. }
  assert (Hb : is_Some (audioBlob s)) by (cbn in Hoff; by bools).
  destruct Hb as [blob Hb].
  cbn [click]. unfold submitWithAudio, await, spawn. rewrite Hb. cbn.
  rewrite lookup_insert_eq. cbn [resume]. unfold finally_loading. cbn.
  rewrite Hm.
  match goal with
  | |- context [commit ?x] =>
      destruct (commit_is_set x) as [v2 E2]; rewrite E2; clear E2
  end. cbn. rewrite <- app_assoc.
  split_and!; try done; try (by exists blob).
Qed.

Lemma audio_read_failure_witness :
  let s2 := run [Click BSubmitAudio no_shot; Settle 13 (Encoded None)]
                recorded in
  offered BSubmitAudio s2 = true ∧ audioBlob s2 = Some "voice".
Proof.
  cbv zeta.
  pose proof (audio_read_failure no_shot recorded) as H.
  assert (Hoff : offered BSubmitAudio recorded = true)
    by (vm_compute; reflexivity).
  specialize (H Hoff). cbv zeta in H.
  destruct H as (_ & _ & _ & Ho & Hb & _).
  split; [exact Ho|].
  etransitivity; [exact Hb|]. vm_compute. reflexivity.
Defined.

(** ** Starting *)



(** ** A second camera grant *)

Lemma acquire_fresh n s t :
  t ∈ (acquire n s).1 → (next_id s ≤ t)%positive.
Proof.
  revert s. induction n as [|n IH]; intros s; cbn; [by intros ?%elem_of_nil|].
  specialize (IH (set_next_id (Pos.succ (next_id s))
                    (set_live ({[next_id s]} ∪ live s) s))).
  destruct (acquire n _) as [ts s']. cbn in *.
  intros [-> | Ht]%elem_of_cons; [lia|]. specialize (IH Ht). lia.
Qed.

Lemma unmount_live s :
  live (unmount s) = live (stopCamera (set_mountedRef false s)).
Proof.
  unfold unmount. destruct (timerRef (stopCamera (set_mountedRef false s)));
    reflexivity.
Qed.

(** X27: the camera button stays on screen while a camera request is
    pending, so a second request can be granted when a stream is already
    held. The grant overwrites [streamRef]: the tracks of the stream held
    before stay live, and since no ref holds them any more no
    [stopCamera], and so no unmount, reset or finish, ever stops them. *)
Theorem second_grant_leaks_first answer n st snap s :
  streamRef s = Some st →
  (∀ t, t ∈ st → (t ∈ live s) ∧ Pos.lt t (next_id s)
                 ∧ (t ∉ tracks_of (audioStreamRef s))) →
  let s' := resume (KCamVideo answer) (Media (Some n)) s in
  (offered BStartCamera s = true →
   offered BStartCamera (step s (Click BStartCamera snap)) = true)
  ∧ (∀ t, t ∈ st → t ∈ live s' ∧ (t ∉ tracks_of (streamRef s'))
                    ∧ t ∈ live (stopCamera s') ∧ t ∈ live (unmount s'))
  ∧ (st ≠ [] → ¬ owned s').
Proof.
  intros Hst Hold s'.
  assert (Hfacts : ∃ ts, streamRef s' = Some ts
                         ∧ audioStreamRef s' = audioStreamRef s
                         ∧ live s' = list_to_set ts ∪ live s
                         ∧ ∀ t, t ∈ ts → Pos.le (next_id s) t).
  { unfold s'. cbn [resume]. unfold startCamera_video.
    pose proof (acquire_devices n s) as (Hl & Hs & Ha).
    pose proof (acquire_fresh n s) as Hf.
    destruct (acquire n s) as [ts s1]. cbn in Hl, Hs, Ha, Hf.
    exists ts. unfold await, spawn.
    destruct (videoRef _); cbn; split_and!; done. }
  destruct Hfacts as (ts & Hs' & Ha' & Hl' & Hfresh).
  assert (Hkeep : ∀ t, t ∈ st → (t ∈ live s') ∧ (t ∉ ts)
                               ∧ (t ∉ tracks_of (audioStreamRef s))).
  { intros t Ht. destruct (Hold t Ht) as (Hlive & Hlt & Hna).
    split_and!; [rewrite Hl'; set_solver | | done].
    intros Hin. apply Hfresh in Hin. lia. }
  split_and!.
  - intros Hoff. unfold step. rewrite offered_commit. cbn [handle].
    rewrite Hoff. exact Hoff.
  - intros t Ht. destruct (Hkeep t Ht) as (Hlive & Hnts & Hna).
    assert (Hsc : t ∈ live (stopCamera s')).
    { rewrite stopCamera_live, Hs', Ha'. cbn [tracks_of default].
      set_solver. }
    split_and!; [done | by rewrite Hs' | done |].
    rewrite unmount_live, stopCamera_live.
    change (live (set_mountedRef false s')) with (live s').
    change (streamRef (set_mountedRef false s')) with (streamRef s').
    change (audioStreamRef (set_mountedRef false s'))
      with (audioStreamRef s').
    rewrite Hs', Ha'. cbn [tracks_of default]. set_solver.
  - intros Hne Hown. destruct st as [|t st']; [done|].
    destruct (Hkeep t) as (Hlive & Hnts & Hna); [set_solver|].
    unfold owned in Hown. rewrite Hs', Ha' in Hown. cbn [tracks_of default] in Hown.
    set_solver.
Qed.

Lemma second_grant_leaks_first_witness :
  let s := run [Click BStartCamera no_shot; Click BStartCamera no_shot;
                Settle 3 (Media (Some 1%nat))] at_interview in
  tasks s !! 4%positive = Some (Promise (KCamVideo None))
  ∧ streamRef s = Some [5%positive]
  ∧ 5%positive ∈ live (unmount (resume (KCamVideo None) (Media (Some 1%nat)) s)).
Proof.
  cbv zeta. split; [vm_compute; reflexivity|].
  split; [vm_compute; reflexivity|].
  eapply (second_grant_leaks_first None 1 [5%positive] no_shot
            (run [Click BStartCamera no_shot; Click BStartCamera no_shot;
                  Settle 3 (Media (Some 1%nat))] at_interview)).
  - vm_compute. reflexivity.
  - intros t Ht. apply list_elem_of_singleton in Ht. subst t.
    split_and!.
    + apply (bool_decide_unpack _). vm_compute. exact I.
    + vm_compute. reflexivity.
    + apply (bool_decide_unpack _). vm_compute. exact I.
  - set_solver.
Defined.

(** ** An audio answer the relay accepts *)



(** ** Between two questions *)


